(** * Dashboard.tsx — the financial projection and context engine

    A shallow embedding of [src/components/Dashboard.tsx]: the projection
    computed by [runSimulation], the snapshot built by [getFinancialContext],
    the periodic perturbation of [mockData], the usage counters and the
    reload of stored inputs.

    JavaScript numbers are idealised as exact rationals ([Q]); the single
    non-finite value the component produces on purpose, the [Infinity] runway,
    is a constructor of its own.  React state is passed explicitly, the
    calls made to collaborators are returned as a list of effects, and
    [Math.random] is an oracle indexed by the number of draws made so far. *)

From Stdlib Require Import QArith Qround Qminmax ZArith List String Bool Lia Lqa.
From Stdlib Require Import Floats Uint63.
Import ListNotations.

Local Open Scope string_scope.
Local Open Scope Q_scope.

(** ** Numbers *)

Definition number := Q.

(** A number that may be the JavaScript value [Infinity]. *)
Inductive xnumber : Type :=
| Finite (q : number)
| Infinity.

(** [x > y] on numbers. *)
Definition gt (x y : number) : bool :=
  match x ?= y with
  | Gt => true
  | _ => false
  end.

Definition Math_floor (x : number) : number := inject_Z (Qfloor x).

Definition Math_max (x y : number) : number := Qmax x y.

(** [a || b] on numbers: [a] unless it is falsy, that is zero. *)
Definition or_else (a b : number) : number :=
  if Qeq_bool a 0 then b else a.

(** ** Data *)

(** Modelled from the spec: [../types/financial] is not part of the sources;
    the fields are the ones the component reads and writes, and custom
    parameters are an ordered sequence of key/value pairs. *)
Module SimulationInputs.
Record t : Type := mk {
    employees : number;
    marketingSpend : number;
    productPrice : number;
    miscExpenses : number;
    currentFunds : number;
    customParameters : list (string * string)
  }.
End SimulationInputs.

Module FinancialData.
Record t : Type := mk {
    revenue : number;
    expenses : number;
    netProfit : number;
    runway : xnumber;
    profitMargin : number
  }.
End FinancialData.

Module FinancialContext.
Record t : Type := mk {
    currentRevenue : number;
    projectedRevenue : number;
    expenses : number;
    growthRate : number;
    timeHorizon : number;
    cashFlow : number;
    profitMargin : number
  }.
End FinancialContext.

Module TimeSeriesPoint.
Record t : Type := mk {
    month : string;
    revenue : number;
    expenses : number
  }.
End TimeSeriesPoint.

Module UsageStats.
Record t : Type := mk {
    simulations : Z;
    exports : Z
  }.
End UsageStats.

(** The record exchanged with the storage collaborator ([useUserData]). *)
Module StoredFinancialData.
Record t : Type := mk {
    current_funds : number;
    monthly_revenue : number;
    monthly_expenses : number;
    employees : number;
    marketing_spend : number;
    product_price : number;
    misc_expenses : number
  }.
End StoredFinancialData.

(** [user?.unsafeMetadata?.organizationData]: possibly absent, and each of
    the two properties the component reads possibly absent as well. *)
Module OrganizationData.
Record t : Type := mk {
    organizationType : option string;
    teamSize : option number
  }.
End OrganizationData.

(** [organizationData?.organizationType] *)
Definition organizationType (organizationData : option OrganizationData.t)
  : option string :=
  match organizationData with
  | Some d => OrganizationData.organizationType d
  | None => None
  end.

(** [organizationData?.organizationType === s] *)
Definition type_is (organizationData : option OrganizationData.t) (s : string)
  : bool :=
  match organizationType organizationData with
  | Some t => String.eqb t s
  | None => false
  end.

(** What the hooks hand to the component. *)
Record Hooks : Type := {
  organizationData : option OrganizationData.t;
  userProfile : option string;          (* [userProfile.id] when signed in *)
  saveFinancialData : bool;             (* is the saving function there *)
  toLocaleDateString : string           (* [new Date().toLocaleDateString()] *)
}.

(** The component's state, one field per [useState]. *)
Record Dashboard : Type := {
  inputs : SimulationInputs.t;
  results : option FinancialData.t;
  usageStats : UsageStats.t;
  isChatOpen : bool;
  mockData : list TimeSeriesPoint.t
}.

(** Calls that leave the component. *)
Inductive Effect : Type :=
| ScrollToTop
| SaveSimulation (userId name description : string)
                 (i : SimulationInputs.t) (r : FinancialData.t)
| SaveFinancialData (row : StoredFinancialData.t).

(** ** Initial state (lines 21-62) *)

Definition initialInputs (organizationData : option OrganizationData.t)
  : SimulationInputs.t :=
  {| SimulationInputs.employees :=
       match organizationData with
       | Some {| OrganizationData.teamSize := Some n |} => or_else n 5
       | _ => 5
       end;
     SimulationInputs.marketingSpend := 200000;
     SimulationInputs.productPrice := 2999;
     SimulationInputs.miscExpenses := 150000;
     SimulationInputs.currentFunds := 5000000;
     SimulationInputs.customParameters := [] |}.

Definition initialMockData : list TimeSeriesPoint.t :=
  [ TimeSeriesPoint.mk "Jan" 1250000 875000;
    TimeSeriesPoint.mk "Feb" 1300000 900000;
    TimeSeriesPoint.mk "Mar" 1200000 850000;
    TimeSeriesPoint.mk "Apr" 1375000 950000;
    TimeSeriesPoint.mk "May" 1450000 1000000;
    TimeSeriesPoint.mk "Jun" 1550000 1050000;
    TimeSeriesPoint.mk "Jul" 1600000 1100000;
    TimeSeriesPoint.mk "Aug" 1750000 1200000 ].

Definition initialDashboard (organizationData : option OrganizationData.t)
  : Dashboard :=
  {| inputs := initialInputs organizationData;
     results := None;
     usageStats := {| UsageStats.simulations := 12; UsageStats.exports := 5 |};
     isChatOpen := false;
     mockData := initialMockData |}.

(** ** The projection (lines 79-104)

    Each [const] of the body of [runSimulation] is a definition of the same
    name, a function of what it reads: [organizationData] and [inputs]. *)

Module RunSimulation.
Section Body.
Variable organizationData : option OrganizationData.t.
Variable inputs : SimulationInputs.t.

Definition baseMultiplier : number :=
  if type_is organizationData "startup" then 1.2
  else if type_is organizationData "event" then 0.8 else 1.0.

Definition assumedQuantity : number := Math_floor (100 * baseMultiplier).

Definition baseSalary : number :=
  if type_is organizationData "startup" then 70000 else 60000.

Definition baseFixedCost : number :=
  if type_is organizationData "event" then 200000 else 300000.

Definition revenue : number :=
  SimulationInputs.productPrice inputs * assumedQuantity.

Definition expenses : number :=
  baseFixedCost + (baseSalary * SimulationInputs.employees inputs)
  + SimulationInputs.marketingSpend inputs
  + SimulationInputs.miscExpenses inputs.

Definition netProfit : number := revenue - expenses.

Definition runway : xnumber :=
  if gt expenses 0
  then Finite (Math_floor (SimulationInputs.currentFunds inputs / expenses))
  else Infinity.

Definition newResults : FinancialData.t :=
  {| FinancialData.revenue := revenue;
     FinancialData.expenses := expenses;
     FinancialData.netProfit := netProfit;
     FinancialData.runway := runway;
     FinancialData.profitMargin :=
       if gt revenue 0 then (netProfit / revenue) * 100 else 0 |}.

End Body.
End RunSimulation.

(** [a || b] on strings: the empty string is falsy, and so is a missing one. *)
Definition or_else_string (a : option string) (b : string) : string :=
  match a with
  | Some s => if String.eqb s "" then b else s
  | None => b
  end.

(** [runSimulation] (lines 79-144): the new state and the calls made, in
    the order of the source. *)
Definition runSimulation (h : Hooks) (st : Dashboard) : Dashboard * list Effect :=
  let newResults := RunSimulation.newResults (organizationData h) (inputs st) in
  let revenue := RunSimulation.revenue (organizationData h) (inputs st) in
  let expenses := RunSimulation.expenses (organizationData h) (inputs st) in
  ({| inputs := inputs st;
      results := Some newResults;
      usageStats :=
        {| UsageStats.simulations := UsageStats.simulations (usageStats st) + 1;
           UsageStats.exports := UsageStats.exports (usageStats st) |};
      isChatOpen := isChatOpen st;
      mockData := mockData st |},
   ([ScrollToTop]
   ++ match userProfile h with
      | Some id =>
          [SaveSimulation id
             ("Simulation " ++ toLocaleDateString h)%string
             (or_else_string (organizationType (organizationData h)) "General"
              ++ " simulation")%string
             (inputs st) newResults]
      | None => []
      end
   ++ if saveFinancialData h
      then [SaveFinancialData
              {| StoredFinancialData.current_funds :=
                   SimulationInputs.currentFunds (inputs st);
                 StoredFinancialData.monthly_revenue := revenue / 12;
                 StoredFinancialData.monthly_expenses := expenses / 12;
                 StoredFinancialData.employees :=
                   SimulationInputs.employees (inputs st);
                 StoredFinancialData.marketing_spend :=
                   SimulationInputs.marketingSpend (inputs st);
                 StoredFinancialData.product_price :=
                   SimulationInputs.productPrice (inputs st);
                 StoredFinancialData.misc_expenses :=
                   SimulationInputs.miscExpenses (inputs st) |}]
      else [])%list).

(** [handleExport] (lines 146-148) *)
Definition handleExport (st : Dashboard) : Dashboard :=
  {| inputs := inputs st;
     results := results st;
     usageStats :=
       {| UsageStats.simulations := UsageStats.simulations (usageStats st);
          UsageStats.exports := UsageStats.exports (usageStats st) + 1 |};
     isChatOpen := isChatOpen st;
     mockData := mockData st |}.

(** ** The context handed to the advisor (lines 151-172)

    The body repeats the first lines of [runSimulation]; the copy is kept
    as a copy, so that the agreement of the two is a theorem. *)

Module GetFinancialContext.
Section Body.
Variable organizationData : option OrganizationData.t.
Variable inputs : SimulationInputs.t.

Definition baseMultiplier : number :=
  if type_is organizationData "startup" then 1.2
  else if type_is organizationData "event" then 0.8 else 1.0.

Definition assumedQuantity : number := Math_floor (100 * baseMultiplier).

Definition baseSalary : number :=
  if type_is organizationData "startup" then 70000 else 60000.

Definition baseFixedCost : number :=
  if type_is organizationData "event" then 200000 else 300000.

Definition revenue : number :=
  SimulationInputs.productPrice inputs * assumedQuantity.

Definition expenses : number :=
  baseFixedCost + (baseSalary * SimulationInputs.employees inputs)
  + SimulationInputs.marketingSpend inputs
  + SimulationInputs.miscExpenses inputs.

Definition netProfit : number := revenue - expenses.

End Body.
End GetFinancialContext.

(** [mockData[mockData.length - 1]]: [undefined] on an empty array. *)
Definition currentMonthData (mockData : list TimeSeriesPoint.t)
  : option TimeSeriesPoint.t :=
  nth_error mockData (List.length mockData - 1).

(** [getFinancialContext]: [None] stands for the [TypeError] raised when a
    property of [undefined] is read. *)
Definition getFinancialContext (h : Hooks) (st : Dashboard)
  : option FinancialContext.t :=
  let revenue := GetFinancialContext.revenue (organizationData h) (inputs st) in
  let expenses := GetFinancialContext.expenses (organizationData h) (inputs st) in
  let netProfit := GetFinancialContext.netProfit (organizationData h) (inputs st) in
  match currentMonthData (mockData st) with
  | Some currentMonthData =>
      Some {| FinancialContext.currentRevenue :=
                TimeSeriesPoint.revenue currentMonthData;
              FinancialContext.projectedRevenue := revenue;
              FinancialContext.expenses := expenses;
              FinancialContext.growthRate := 15;
              FinancialContext.timeHorizon := 12;
              FinancialContext.cashFlow :=
                TimeSeriesPoint.revenue currentMonthData
                - TimeSeriesPoint.expenses currentMonthData;
              FinancialContext.profitMargin :=
                if gt revenue 0 then (netProfit / revenue) * 100 else 0 |}
  | None => None
  end.

(** ** Reloading stored inputs (lines 39-51) *)

(** The updater passed to [setInputs]. *)
Definition mergeFinancialData (financialData : StoredFinancialData.t)
  (prev : SimulationInputs.t) : SimulationInputs.t :=
  {| SimulationInputs.employees :=
       or_else (StoredFinancialData.employees financialData)
               (SimulationInputs.employees prev);
     SimulationInputs.marketingSpend :=
       or_else (StoredFinancialData.marketing_spend financialData)
               (SimulationInputs.marketingSpend prev);
     SimulationInputs.productPrice :=
       or_else (StoredFinancialData.product_price financialData)
               (SimulationInputs.productPrice prev);
     SimulationInputs.miscExpenses :=
       or_else (StoredFinancialData.misc_expenses financialData)
               (SimulationInputs.miscExpenses prev);
     SimulationInputs.currentFunds :=
       or_else (StoredFinancialData.current_funds financialData)
               (SimulationInputs.currentFunds prev);
     SimulationInputs.customParameters :=
       SimulationInputs.customParameters prev |}.

(** The effect run when [financialData] changes; nothing happens while it is
    [null]. *)
Definition loadFinancialData (financialData : option StoredFinancialData.t)
  (st : Dashboard) : Dashboard :=
  match financialData with
  | Some fd =>
      {| inputs := mergeFinancialData fd (inputs st);
         results := results st;
         usageStats := usageStats st;
         isChatOpen := isChatOpen st;
         mockData := mockData st |}
  | None => st
  end.

(** ** The live series (lines 65-77) *)

(** Computations that draw random numbers: the state is the number of
    draws made so far. *)
Definition Rand (A : Type) : Type := nat -> A * nat.

Definition ret {A : Type} (a : A) : Rand A := fun n => (a, n).

Definition bind {A B : Type} (m : Rand A) (k : A -> Rand B) : Rand B :=
  fun n => let (a, n') := m n in k a n'.

Notation "x <- m ;; k" := (bind m (fun x => k))
  (at level 61, m at next level, right associativity).

Fixpoint mapM {A B : Type} (f : A -> Rand B) (l : list A) : Rand (list B) :=
  match l with
  | [] => ret []
  | a :: l' => b <- f a ;; bs <- mapM f l' ;; ret (b :: bs)
  end.

Section Live.
(** The values [Math.random()] returns, in the order of the calls. *)
Variable Math_random : nat -> number.

Definition random : Rand number := fun n => (Math_random n, S n).

(** The function mapped over [prevData]; the draw for [revenue] is made
    before the one for [expenses]. *)
Definition perturb (item : TimeSeriesPoint.t) : Rand TimeSeriesPoint.t :=
  u <- random ;;
  v <- random ;;
  ret {| TimeSeriesPoint.month := TimeSeriesPoint.month item;
         TimeSeriesPoint.revenue :=
           Math_max 0 (TimeSeriesPoint.revenue item + (u - 0.5) * 125000);
         TimeSeriesPoint.expenses :=
           Math_max 0 (TimeSeriesPoint.expenses item + (v - 0.5) * 75000) |}.

(** One firing of the interval. *)
Definition tick (prevData : list TimeSeriesPoint.t)
  : Rand (list TimeSeriesPoint.t) :=
  mapM perturb prevData.

(** [count] firings in a row. *)
Fixpoint ticks (count : nat) (data : list TimeSeriesPoint.t)
  : Rand (list TimeSeriesPoint.t) :=
  match count with
  | O => ret data
  | S count' => data' <- tick data ;; ticks count' data'
  end.

(** ** The component as a transition system *)

Inductive Event : Type :=
| Simulate                                   (* [onSimulate], [onClick] *)
| Export                                     (* [onExport] *)
| InputChange (i : SimulationInputs.t)       (* [onInputChange] *)
| ChatOpen
| ChatClose
| FinancialDataChanged (financialData : option StoredFinancialData.t)
| IntervalFired.

Definition setIsChatOpen (b : bool) (st : Dashboard) : Dashboard :=
  {| inputs := inputs st; results := results st; usageStats := usageStats st;
     isChatOpen := b; mockData := mockData st |}.

Definition setInputs (i : SimulationInputs.t) (st : Dashboard) : Dashboard :=
  {| inputs := i; results := results st; usageStats := usageStats st;
     isChatOpen := isChatOpen st; mockData := mockData st |}.

Definition setMockData (d : list TimeSeriesPoint.t) (st : Dashboard) : Dashboard :=
  {| inputs := inputs st; results := results st; usageStats := usageStats st;
     isChatOpen := isChatOpen st; mockData := d |}.

(** One event: the new state, the draws consumed and the calls made. *)
Definition step (h : Hooks) (e : Event) (st : Dashboard)
  : Rand (Dashboard * list Effect) :=
  match e with
  | Simulate => ret (runSimulation h st)
  | Export => ret (handleExport st, [])
  | InputChange i => ret (setInputs i st, [])
  | ChatOpen => ret (setIsChatOpen true st, [])
  | ChatClose => ret (setIsChatOpen false st, [])
  | FinancialDataChanged fd => ret (loadFinancialData fd st, [])
  | IntervalFired => d <- tick (mockData st) ;; ret (setMockData d st, [])
  end.

(** A sequence of events, the calls accumulated in order. *)
Fixpoint run (h : Hooks) (es : list Event) (st : Dashboard)
  : Rand (Dashboard * list Effect) :=
  match es with
  | [] => ret (st, [])
  | e :: es' =>
      r <- step h e st ;;
      r' <- run h es' (fst r) ;;
      ret (fst r', (snd r ++ snd r')%list)
  end.

End Live.

(** ** The projection on IEEE 754 doubles

    The same lines 81-104 with the arithmetic of the JavaScript engine
    (binary64, round to nearest even), to run concrete inputs bit for bit
    and compare them with the exact model above. *)

Module Binary64.
#[local] Set Warnings "-inexact-float".
Local Open Scope float_scope.

Definition of_Z (n : Z) : float := PrimFloat.of_uint63 (Uint63.of_Z n).

(** [Math.floor]: a double whose exponent is not negative is an integer
    already; otherwise the magnitude is below 2^53 and its floor is exact. *)
Definition Math_floor (x : float) : float :=
  match Prim2SF x with
  | S754_finite s m e =>
      if (0 <=? e)%Z then x
      else
        let q := (Z.pos m / 2 ^ (- e))%Z in
        let r := (Z.pos m mod 2 ^ (- e))%Z in
        if s then - of_Z (if (r =? 0)%Z then q else q + 1) else of_Z q
  | _ => x
  end.

Record Inputs : Type := {
  employees : float;
  marketingSpend : float;
  productPrice : float;
  miscExpenses : float;
  currentFunds : float
}.

Record Results : Type := {
  revenue : float;
  expenses : float;
  netProfit : float;
  runway : float;
  profitMargin : float
}.

Definition newResults (organizationData : option OrganizationData.t)
  (inputs : Inputs) : Results :=
  let baseMultiplier :=
    if type_is organizationData "startup" then 1.2
    else if type_is organizationData "event" then 0.8 else 1.0 in
  let assumedQuantity := Math_floor (100 * baseMultiplier) in
  let baseSalary :=
    if type_is organizationData "startup" then 70000 else 60000 in
  let baseFixedCost :=
    if type_is organizationData "event" then 200000 else 300000 in
  let revenue := productPrice inputs * assumedQuantity in
  let expenses :=
    baseFixedCost + (baseSalary * employees inputs)
    + marketingSpend inputs + miscExpenses inputs in
  let netProfit := revenue - expenses in
  let runway :=
    if 0 <? expenses then Math_floor (currentFunds inputs / expenses)
    else infinity in
  {| revenue := revenue;
     expenses := expenses;
     netProfit := netProfit;
     runway := runway;
     profitMargin := if 0 <? revenue then (netProfit / revenue) * 100 else 0 |}.

End Binary64.

(** ** The resolved profile, for statements *)

(** The three constants as [runSimulation] resolves them. *)
Definition resolved (od : option OrganizationData.t) : number * number * number :=
  (RunSimulation.baseMultiplier od,
   RunSimulation.baseSalary od,
   RunSimulation.baseFixedCost od).

(** The same, as [getFinancialContext] resolves them. *)
Definition resolved_for_context (od : option OrganizationData.t)
  : number * number * number :=
  (GetFinancialContext.baseMultiplier od,
   GetFinancialContext.baseSalary od,
   GetFinancialContext.baseFixedCost od).

(** The data model's range of [SimulationInputs]: no field is negative. *)
Definition well_formed (i : SimulationInputs.t) : Prop :=
  0 <= SimulationInputs.employees i
  /\ 0 <= SimulationInputs.marketingSpend i
  /\ 0 <= SimulationInputs.productPrice i
  /\ 0 <= SimulationInputs.miscExpenses i
  /\ 0 <= SimulationInputs.currentFunds i.

(** The range of the series, for statements: no value is negative. *)
Definition nonnegative (p : TimeSeriesPoint.t) : Prop :=
  0 <= TimeSeriesPoint.revenue p /\ 0 <= TimeSeriesPoint.expenses p.

(** The rows handed to [saveFinancialData] among the calls made. *)
Definition savedFinancialData (effects : list Effect)
  : list StoredFinancialData.t :=
  flat_map (fun e => match e with
                     | SaveFinancialData row => [row]
                     | _ => []
                     end) effects.

(** How often each of the two counted triggers occurs in a sequence. *)
Definition runs (es : list Event) : Z :=
  Z.of_nat (List.length
              (filter (fun e => match e with Simulate => true | _ => false end) es)).

Definition exportations (es : list Event) : Z :=
  Z.of_nat (List.length
              (filter (fun e => match e with Export => true | _ => false end) es)).

(** A field after the reload: the stored value unless it is zero. *)
Definition reloaded (stored prev next : number) : Prop :=
  (stored == 0 -> next = prev) /\ (~ stored == 0 -> next = stored).

(** ** What is rendered (lines 213, 174-265) *)

(** [{!results && ...}]: the call to action is shown while there are no
    results. *)
Definition showCallToAction (st : Dashboard) : bool :=
  match results st with
  | Some _ => false
  | None => true
  end.

(** ** More vocabulary for statements *)

(** The records handed to [simulationService.saveSimulation]. *)
Definition savedSimulations (effects : list Effect)
  : list (string * string * string * SimulationInputs.t * FinancialData.t) :=
  flat_map (fun e => match e with
                     | SaveSimulation id name description i r =>
                         [(id, name, description, i, r)]
                     | _ => []
                     end) effects.

(** Events that write [inputs]. *)
Definition writes_inputs (e : Event) : bool :=
  match e with
  | InputChange _ => true
  | FinancialDataChanged (Some _) => true
  | _ => false
  end.

Definition is_input_change (e : Event) : bool :=
  match e with
  | InputChange _ => true
  | _ => false
  end.

(** A stored row without negative values in the five fields read back. *)
Definition stored_nonnegative (fd : StoredFinancialData.t) : Prop :=
  0 <= StoredFinancialData.current_funds fd
  /\ 0 <= StoredFinancialData.employees fd
  /\ 0 <= StoredFinancialData.marketing_spend fd
  /\ 0 <= StoredFinancialData.product_price fd
  /\ 0 <= StoredFinancialData.misc_expenses fd.

(** Events that bring nothing negative in. *)
Definition admissible (e : Event) : Prop :=
  match e with
  | InputChange i => well_formed i
  | FinancialDataChanged (Some fd) => stored_nonnegative fd
  | _ => True
  end.

(** * Properties *)

(** ** Comparisons and the falsy test *)

Lemma gt_true (x y : number) : gt x y = true <-> y < x.
Proof.
  unfold gt. rewrite Qgt_alt.
  destruct (x ?= y); split; congruence.
Qed.

Lemma gt_false (x y : number) : gt x y = false <-> x <= y.
Proof.
  rewrite <- not_true_iff_false, gt_true. split.
  - apply Qnot_lt_le.
  - apply Qle_not_lt.
Qed.

Lemma or_else_falsy (a b : number) : a == 0 -> or_else a b = b.
Proof.
  intro H. unfold or_else.
  now apply Qeq_bool_iff in H as ->.
Qed.

Lemma or_else_truthy (a b : number) : ~ a == 0 -> or_else a b = a.
Proof.
  intro H. unfold or_else.
  destruct (Qeq_bool a 0) eqn:E; [|reflexivity].
  now apply Qeq_bool_iff in E.
Qed.

(** ** The organization profile *)

Lemma type_is_true (od : option OrganizationData.t) (s : string) :
  type_is od s = true <-> organizationType od = Some s.
Proof.
  unfold type_is. destruct (organizationType od) as [t|].
  - rewrite String.eqb_eq. split; congruence.
  - split; discriminate.
Qed.

Lemma type_is_false (od : option OrganizationData.t) (s : string) :
  type_is od s = false <-> organizationType od <> Some s.
Proof.
  rewrite <- not_true_iff_false, type_is_true. reflexivity.
Qed.

Lemma resolved_agree (od : option OrganizationData.t) :
  resolved_for_context od = resolved od.
Proof. reflexivity. Qed.

Ltac by_type od :=
  unfold resolved, resolved_for_context,
    RunSimulation.baseMultiplier, RunSimulation.baseSalary,
    RunSimulation.baseFixedCost, GetFinancialContext.baseMultiplier,
    GetFinancialContext.baseSalary, GetFinancialContext.baseFixedCost;
  destruct (type_is od "startup") eqn:?Hstartup;
  destruct (type_is od "event") eqn:?Hevent.

(** C5. Whatever the organization-type tag is, present or not, both
    functions resolve the profile of the table: (1.2, 70000, 300000) for
    "startup", (0.8, 60000, 200000) for "event", (1.0, 60000, 300000) for
    every other tag and for a missing one.  Resolution is a total function:
    there is no error case. *)
Theorem profile_table (od : option OrganizationData.t) :
  (organizationType od = Some "startup" ->
     resolved od = (1.2, 70000, 300000)
     /\ resolved_for_context od = (1.2, 70000, 300000))
  /\ (organizationType od = Some "event" ->
     resolved od = (0.8, 60000, 200000)
     /\ resolved_for_context od = (0.8, 60000, 200000))
  /\ (organizationType od <> Some "startup" ->
      organizationType od <> Some "event" ->
     resolved od = (1.0, 60000, 300000)
     /\ resolved_for_context od = (1.0, 60000, 300000)).
Proof.
  repeat split; intros.
  all: by_type od; try reflexivity.
  all: repeat match goal with
       | H : type_is _ _ = true |- _ => apply type_is_true in H
       | H : type_is _ _ = false |- _ => apply type_is_false in H
       end; congruence.
Qed.

(** ** The projection and the context *)

Lemma runSimulation_results (h : Hooks) (st : Dashboard) :
  results (fst (runSimulation h st))
  = Some (RunSimulation.newResults (organizationData h) (inputs st)).
Proof. reflexivity. Qed.

Lemma currentMonthData_nonempty (d : list TimeSeriesPoint.t) :
  d <> [] -> exists p, currentMonthData d = Some p.
Proof.
  intro Hd. unfold currentMonthData.
  destruct (nth_error d (List.length d - 1)) as [p|] eqn:E.
  - now exists p.
  - apply nth_error_None in E. destruct d; [easy | simpl in E; lia].
Qed.

Lemma getFinancialContext_defined (h : Hooks) (st : Dashboard) :
  mockData st <> [] ->
  exists p,
    currentMonthData (mockData st) = Some p
    /\ getFinancialContext h st
       = Some {| FinancialContext.currentRevenue := TimeSeriesPoint.revenue p;
                 FinancialContext.projectedRevenue :=
                   GetFinancialContext.revenue (organizationData h) (inputs st);
                 FinancialContext.expenses :=
                   GetFinancialContext.expenses (organizationData h) (inputs st);
                 FinancialContext.growthRate := 15;
                 FinancialContext.timeHorizon := 12;
                 FinancialContext.cashFlow :=
                   TimeSeriesPoint.revenue p - TimeSeriesPoint.expenses p;
                 FinancialContext.profitMargin :=
                   if gt (GetFinancialContext.revenue (organizationData h)
                            (inputs st)) 0
                   then GetFinancialContext.netProfit (organizationData h)
                          (inputs st)
                        / GetFinancialContext.revenue (organizationData h)
                            (inputs st) * 100
                   else 0 |}.
Proof.
  intro Hd. destruct (currentMonthData_nonempty _ Hd) as [p Hp].
  exists p. split; [exact Hp|].
  unfold getFinancialContext. now rewrite Hp.
Qed.

(** C1. For every inputs and every organization-type tag, the context
    builder and the projection give the same revenue, expenses and profit
    margin.  Both take the quantity [floor (100 * multiplier)] once and
    multiply the price by it, with no second use of the multiplier, and both
    add up the same expenses.  (The context reads the last point of the
    series, so the series must not be empty.) *)
Theorem context_agrees_with_projection (h : Hooks) (st : Dashboard)
  (Hseries : mockData st <> []) :
  exists ctx r,
    getFinancialContext h st = Some ctx
    /\ results (fst (runSimulation h st)) = Some r
    /\ FinancialContext.projectedRevenue ctx = FinancialData.revenue r
    /\ FinancialContext.expenses ctx = FinancialData.expenses r
    /\ FinancialContext.profitMargin ctx = FinancialData.profitMargin r
    /\ (forall m s f, resolved (organizationData h) = (m, s, f) ->
        FinancialData.revenue r
        = SimulationInputs.productPrice (inputs st) * Math_floor (100 * m)
        /\ FinancialData.expenses r
           = f + s * SimulationInputs.employees (inputs st)
             + SimulationInputs.marketingSpend (inputs st)
             + SimulationInputs.miscExpenses (inputs st))
    /\ (forall m s f, resolved_for_context (organizationData h) = (m, s, f) ->
        FinancialContext.projectedRevenue ctx
        = SimulationInputs.productPrice (inputs st) * Math_floor (100 * m)
        /\ FinancialContext.expenses ctx
           = f + s * SimulationInputs.employees (inputs st)
             + SimulationInputs.marketingSpend (inputs st)
             + SimulationInputs.miscExpenses (inputs st)).
Proof.
  destruct (getFinancialContext_defined h st Hseries) as (p & _ & Hctx).
  eexists. eexists. split; [exact Hctx|].
  split; [apply runSimulation_results|].
  cbn [FinancialContext.projectedRevenue FinancialContext.expenses
       FinancialContext.profitMargin].
  repeat split; try reflexivity.
  all: injection H as <- <- <-; reflexivity.
Qed.

Lemma context_agrees_with_projection_witness :
  exists ctx r,
    getFinancialContext
      {| organizationData := None; userProfile := None;
         saveFinancialData := false; toLocaleDateString := "" |}
      (initialDashboard None) = Some ctx
    /\ results (fst (runSimulation
         {| organizationData := None; userProfile := None;
            saveFinancialData := false; toLocaleDateString := "" |}
         (initialDashboard None))) = Some r
    /\ FinancialContext.projectedRevenue ctx = FinancialData.revenue r
    /\ FinancialContext.expenses ctx = FinancialData.expenses r
    /\ FinancialContext.profitMargin ctx = FinancialData.profitMargin r.
Proof.
  destruct (context_agrees_with_projection
              {| organizationData := None; userProfile := None;
                 saveFinancialData := false; toLocaleDateString := "" |}
              (initialDashboard None))
    as (ctx & r & H1 & H2 & H3 & H4 & H5 & _).
  - simpl. discriminate.
  - exists ctx, r. repeat split; assumption.
Defined.

(** C2. A startup with price 2999, 5 employees, 200000 of marketing, 150000
    of miscellaneous expenses and 5000000 of funds: the profile is
    (1.2, 70000, 300000), the assumed quantity 120, and the projection is
    exactly revenue 359880, expenses 1000000, net profit -640120, runway 5
    and profit margin (-640120 / 359880) * 100, which is -177.9 to one
    decimal. *)
Theorem startup_scenario (h : Hooks) (st : Dashboard)
  (Htype : organizationType (organizationData h) = Some "startup")
  (HproductPrice : SimulationInputs.productPrice (inputs st) = 2999)
  (Hemployees : SimulationInputs.employees (inputs st) = 5)
  (HmarketingSpend : SimulationInputs.marketingSpend (inputs st) = 200000)
  (HmiscExpenses : SimulationInputs.miscExpenses (inputs st) = 150000)
  (HcurrentFunds : SimulationInputs.currentFunds (inputs st) = 5000000) :
  resolved (organizationData h) = (1.2, 70000, 300000)
  /\ RunSimulation.assumedQuantity (organizationData h) = 120
  /\ results (fst (runSimulation h st))
     = Some {| FinancialData.revenue := 359880;
               FinancialData.expenses := 1000000;
               FinancialData.netProfit := -640120;
               FinancialData.runway := Finite 5;
               FinancialData.profitMargin := (-640120 / 359880) * 100 |}
  /\ -177.95 < (-640120 / 359880) * 100 < -177.85.
Proof.
  assert (Hevent : type_is (organizationData h) "event" = false).
  { apply type_is_false. rewrite Htype. discriminate. }
  apply type_is_true in Htype.
  rewrite runSimulation_results.
  unfold resolved, RunSimulation.newResults, RunSimulation.runway,
    RunSimulation.netProfit, RunSimulation.expenses, RunSimulation.revenue,
    RunSimulation.assumedQuantity, RunSimulation.baseMultiplier,
    RunSimulation.baseSalary, RunSimulation.baseFixedCost.
  rewrite Htype, Hevent, HproductPrice, Hemployees, HmarketingSpend,
    HmiscExpenses, HcurrentFunds.
  repeat split; reflexivity.
Qed.

Lemma startup_scenario_witness :
  results (fst (runSimulation
    {| organizationData :=
         Some {| OrganizationData.organizationType := Some "startup";
                 OrganizationData.teamSize := None |};
       userProfile := Some "user_1"; saveFinancialData := true;
       toLocaleDateString := "11/3/2026" |}
    (initialDashboard
       (Some {| OrganizationData.organizationType := Some "startup";
                OrganizationData.teamSize := None |}))))
  = Some {| FinancialData.revenue := 359880;
            FinancialData.expenses := 1000000;
            FinancialData.netProfit := -640120;
            FinancialData.runway := Finite 5;
            FinancialData.profitMargin := (-640120 / 359880) * 100 |}.
Proof.
  apply (startup_scenario
    {| organizationData :=
         Some {| OrganizationData.organizationType := Some "startup";
                 OrganizationData.teamSize := None |};
       userProfile := Some "user_1"; saveFinancialData := true;
       toLocaleDateString := "11/3/2026" |}
    (initialDashboard
       (Some {| OrganizationData.organizationType := Some "startup";
                OrganizationData.teamSize := None |}))); reflexivity.
Defined.

(** The same scenario on doubles: every value is the one of the exact
    model, the margin being the double nearest to the quotient. *)
Lemma startup_scenario_binary64 :
  Binary64.newResults
    (Some {| OrganizationData.organizationType := Some "startup";
             OrganizationData.teamSize := None |})
    {| Binary64.employees := 5; Binary64.marketingSpend := 200000;
       Binary64.productPrice := 2999; Binary64.miscExpenses := 150000;
       Binary64.currentFunds := 5000000 |}
  = {| Binary64.revenue := 359880; Binary64.expenses := 1000000;
       Binary64.netProfit := -640120; Binary64.runway := 5;
       Binary64.profitMargin := (-640120 / 359880) * 100 |}%float
  /\ (-17795 <? (-640120 / 359880) * 100 * 100)%float = true
  /\ ((-640120 / 359880) * 100 * 100 <? -17785)%float = true.
Proof. repeat split; vm_compute; reflexivity. Qed.

(** The two other scenarios of the test plan. *)
Example event_scenario :
  let r := RunSimulation.newResults
             (Some {| OrganizationData.organizationType := Some "event";
                      OrganizationData.teamSize := None |})
             (initialInputs None) in
  RunSimulation.assumedQuantity
    (Some {| OrganizationData.organizationType := Some "event";
             OrganizationData.teamSize := None |}) = 80
  /\ FinancialData.revenue r = 239920
  /\ FinancialData.expenses r = 850000.
Proof. repeat split. Qed.

Example idle_scenario (currentFunds : number) :
  RunSimulation.newResults None (SimulationInputs.mk 0 0 0 0 currentFunds [])
  = {| FinancialData.revenue := 0;
       FinancialData.expenses := 300000;
       FinancialData.netProfit := -300000;
       FinancialData.runway := Finite (Math_floor (currentFunds / 300000));
       FinancialData.profitMargin := 0 |}.
Proof. reflexivity. Qed.

(** On doubles the assumed quantity of the three rows is 120, 80 and 100 as
    well: neither [100 * 1.2] nor [100 * 0.8] falls below the integer. *)
Lemma assumedQuantity_binary64 :
  let unit_price :=
    {| Binary64.employees := 0; Binary64.marketingSpend := 0;
       Binary64.productPrice := 1; Binary64.miscExpenses := 0;
       Binary64.currentFunds := 0 |}%float in
  Binary64.revenue
    (Binary64.newResults
       (Some {| OrganizationData.organizationType := Some "startup";
                OrganizationData.teamSize := None |}) unit_price) = 120%float
  /\ Binary64.revenue
       (Binary64.newResults
          (Some {| OrganizationData.organizationType := Some "event";
                   OrganizationData.teamSize := None |}) unit_price) = 80%float
  /\ Binary64.revenue (Binary64.newResults None unit_price) = 100%float.
Proof. repeat split; vm_compute; reflexivity. Qed.

(** ** Runway *)

Lemma expenses_positive (od : option OrganizationData.t) (i : SimulationInputs.t) :
  well_formed i -> 200000 <= RunSimulation.expenses od i.
Proof.
  intros (He & Hm & _ & Hx & _).
  unfold RunSimulation.expenses, RunSimulation.baseSalary,
    RunSimulation.baseFixedCost.
  destruct (type_is od "startup"), (type_is od "event"); lra.
Qed.

(** Whatever the inputs are: the guard decides, and the quotient is only
    computed under it, where the divisor is positive. *)
Lemma runway_cases (od : option OrganizationData.t) (i : SimulationInputs.t) :
  (0 < RunSimulation.expenses od i ->
     RunSimulation.runway od i
     = Finite (Math_floor (SimulationInputs.currentFunds i
                           / RunSimulation.expenses od i)))
  /\ (RunSimulation.expenses od i <= 0 -> RunSimulation.runway od i = Infinity).
Proof.
  unfold RunSimulation.runway. split; intro H.
  - apply gt_true in H. now rewrite H.
  - apply gt_false in H. now rewrite H.
Qed.




(** The sentinel at zero expenses: with -5 employees the salaries offset
    the fixed cost of the default profile exactly. *)
Example runway_sentinel_zero_expenses :
  let r := RunSimulation.newResults None
             (SimulationInputs.mk (-5) 0 2999 0 5000000 []) in
  FinancialData.expenses r = 0 /\ FinancialData.runway r = Infinity.
Proof. split; reflexivity. Qed.

(** On doubles the guard decides in the same way, for every input: the
    quotient is computed when [0 < expenses] and only then, and the runway
    is the literal [Infinity] otherwise (zero, negative or no number). *)
Lemma runway_guard_binary64 (od : option OrganizationData.t)
  (i : Binary64.Inputs) :
  let r := Binary64.newResults od i in
  ((0 <? Binary64.expenses r)%float = true ->
     Binary64.runway r
     = Binary64.Math_floor (Binary64.currentFunds i / Binary64.expenses r)%float)
  /\ ((0 <? Binary64.expenses r)%float = false ->
      Binary64.runway r = infinity).
Proof.
  cbv zeta. unfold Binary64.newResults.
  cbn [Binary64.runway Binary64.expenses].
  split; intros ->; reflexivity.
Qed.

Lemma runway_sentinel_negative_expenses_binary64 :
  let r := Binary64.newResults None
             {| Binary64.employees := 5; Binary64.marketingSpend := -1000000;
                Binary64.productPrice := 2999; Binary64.miscExpenses := 150000;
                Binary64.currentFunds := 5000000 |}%float in
  Binary64.expenses r = (-250000)%float /\ Binary64.runway r = infinity.
Proof. split; vm_compute; reflexivity. Qed.

(** ** Profit margin *)

Lemma margin_cases (revenue netProfit : number) :
  (revenue == 0 ->
     (if gt revenue 0 then netProfit / revenue * 100 else 0) = 0)
  /\ (0 < revenue ->
     (if gt revenue 0 then netProfit / revenue * 100 else 0)
     = netProfit / revenue * 100).
Proof.
  split; intro H.
  - assert (E : gt revenue 0 = false) by (apply gt_false; rewrite H; apply Qle_refl).
    now rewrite E.
  - apply gt_true in H. now rewrite H.
Qed.

(** C4. Whenever the computed revenue is zero, the profit margin of the
    projection and that of the context are exactly 0, whatever the net
    profit (which is then zero or negative); whenever the revenue is
    positive, both are (netProfit / revenue) * 100. *)
Theorem margin_guarded (h : Hooks) (st : Dashboard)
  (Hseries : mockData st <> []) :
  exists ctx r,
    getFinancialContext h st = Some ctx
    /\ results (fst (runSimulation h st)) = Some r
    /\ (FinancialData.revenue r == 0 ->
        FinancialData.profitMargin r = 0
        /\ FinancialContext.profitMargin ctx = 0)
    /\ (0 < FinancialData.revenue r ->
        FinancialData.profitMargin r
        = FinancialData.netProfit r / FinancialData.revenue r * 100
        /\ FinancialContext.profitMargin ctx
           = (FinancialContext.projectedRevenue ctx
              - FinancialContext.expenses ctx)
             / FinancialContext.projectedRevenue ctx * 100).
Proof.
  destruct (getFinancialContext_defined h st Hseries) as (p & _ & Hctx).
  eexists. eexists. split; [exact Hctx|].
  split; [apply runSimulation_results|].
  cbn [FinancialContext.projectedRevenue FinancialContext.expenses
       FinancialContext.profitMargin FinancialData.revenue
       FinancialData.netProfit FinancialData.profitMargin
       RunSimulation.newResults].
  split; intro H; split.
  - now apply margin_cases.
  - apply (margin_cases (GetFinancialContext.revenue _ _)). exact H.
  - now apply margin_cases.
  - apply (margin_cases (GetFinancialContext.revenue _ _)). exact H.
Qed.

Lemma margin_guarded_witness :
  exists ctx r,
    getFinancialContext
      {| organizationData := None; userProfile := None;
         saveFinancialData := false; toLocaleDateString := "" |}
      (setInputs (SimulationInputs.mk 0 0 0 0 5000000 []) (initialDashboard None))
    = Some ctx
    /\ results (fst (runSimulation
         {| organizationData := None; userProfile := None;
            saveFinancialData := false; toLocaleDateString := "" |}
         (setInputs (SimulationInputs.mk 0 0 0 0 5000000 [])
            (initialDashboard None)))) = Some r
    /\ FinancialData.netProfit r = -300000
    /\ FinancialData.profitMargin r = 0
    /\ FinancialContext.profitMargin ctx = 0.
Proof.
  destruct (margin_guarded
              {| organizationData := None; userProfile := None;
                 saveFinancialData := false; toLocaleDateString := "" |}
              (setInputs (SimulationInputs.mk 0 0 0 0 5000000 [])
                 (initialDashboard None)))
    as (ctx & r & Hctx & Hr & Hzero & _).
  - simpl. discriminate.
  - exists ctx, r. split; [exact Hctx|]. split; [exact Hr|].
    rewrite runSimulation_results in Hr. injection Hr as <-.
    split; [reflexivity|]. apply Hzero. reflexivity.
Defined.

(** ** The live series *)

Lemma Math_max_clamp (x : number) :
  0 <= Math_max 0 x
  /\ (x <= 0 -> Math_max 0 x == 0)
  /\ (0 <= x -> Math_max 0 x == x).
Proof.
  unfold Math_max. split; [apply Q.le_max_l|]. split; intro H.
  - now apply Q.max_l.
  - now apply Q.max_r.
Qed.

Lemma mapM_cons {A B : Type} (f : A -> Rand B) (a : A) (l : list A) (n : nat) :
  mapM f (a :: l) n
  = (fst (f a n) :: fst (mapM f l (snd (f a n))),
     snd (mapM f l (snd (f a n)))).
Proof.
  simpl. unfold bind, ret.
  destruct (f a n) as [b n']. simpl.
  now destruct (mapM f l n') as [bs n''].
Qed.

Section LiveProperties.
Variable Math_random : nat -> number.

Lemma perturb_eq (item : TimeSeriesPoint.t) (n : nat) :
  perturb Math_random item n
  = ({| TimeSeriesPoint.month := TimeSeriesPoint.month item;
        TimeSeriesPoint.revenue :=
          Math_max 0 (TimeSeriesPoint.revenue item
                      + (Math_random n - 0.5) * 125000);
        TimeSeriesPoint.expenses :=
          Math_max 0 (TimeSeriesPoint.expenses item
                      + (Math_random (S n) - 0.5) * 75000) |},
     S (S n)).
Proof. reflexivity. Qed.

Lemma tick_cons (item : TimeSeriesPoint.t) (l : list TimeSeriesPoint.t) (n : nat) :
  tick Math_random (item :: l) n
  = (fst (perturb Math_random item n) :: fst (tick Math_random l (S (S n))),
     snd (tick Math_random l (S (S n)))).
Proof. unfold tick. now rewrite mapM_cons, perturb_eq. Qed.

Lemma tick_draws (l : list TimeSeriesPoint.t) (n : nat) :
  snd (tick Math_random l n) = (n + 2 * List.length l)%nat.
Proof.
  revert n. induction l as [|item l IH]; intro n.
  - simpl. lia.
  - rewrite tick_cons. cbn [snd List.length]. rewrite IH. lia.
Qed.

Lemma tick_length (l : list TimeSeriesPoint.t) (n : nat) :
  List.length (fst (tick Math_random l n)) = List.length l.
Proof.
  revert n. induction l as [|item l IH]; intro n; [reflexivity|].
  rewrite tick_cons. cbn [fst List.length]. now rewrite IH.
Qed.

Lemma tick_months (l : list TimeSeriesPoint.t) (n : nat) :
  map TimeSeriesPoint.month (fst (tick Math_random l n))
  = map TimeSeriesPoint.month l.
Proof.
  revert n. induction l as [|item l IH]; intro n; [reflexivity|].
  rewrite tick_cons. cbn [fst map]. now rewrite IH.
Qed.

Lemma tick_nonnegative (l : list TimeSeriesPoint.t) (n : nat) :
  Forall nonnegative (fst (tick Math_random l n)).
Proof.
  revert n. induction l as [|item l IH]; intro n.
  - constructor.
  - rewrite tick_cons. cbn [fst]. constructor; [|apply IH].
    rewrite perturb_eq. split; apply Math_max_clamp.
Qed.

Lemma tick_nth (l : list TimeSeriesPoint.t) (n i : nat) (item : TimeSeriesPoint.t) :
  nth_error l i = Some item ->
  nth_error (fst (tick Math_random l n)) i
  = Some (fst (perturb Math_random item (n + 2 * i)%nat)).
Proof.
  revert n i. induction l as [|a l IH]; intros n i Hi.
  - destruct i; discriminate.
  - rewrite tick_cons. cbn [fst]. destruct i as [|i].
    + injection Hi as ->. now rewrite Nat.mul_0_r, Nat.add_0_r.
    + cbn [nth_error] in *. rewrite (IH _ _ Hi).
      now replace (S (S n) + 2 * i)%nat with (n + 2 * S i)%nat by lia.
Qed.

Lemma ticks_succ (count : nat) (data : list TimeSeriesPoint.t) (n : nat) :
  ticks Math_random (S count) data n
  = ticks Math_random count (fst (tick Math_random data n))
      (snd (tick Math_random data n)).
Proof.
  simpl. unfold bind. now destruct (tick Math_random data n).
Qed.

Lemma ticks_invariant (count : nat) (data : list TimeSeriesPoint.t) (n : nat) :
  Forall nonnegative data ->
  List.length (fst (ticks Math_random count data n)) = List.length data
  /\ Forall nonnegative (fst (ticks Math_random count data n))
  /\ map TimeSeriesPoint.month (fst (ticks Math_random count data n))
     = map TimeSeriesPoint.month data.
Proof.
  revert data n. induction count as [|count IH]; intros data n Hdata.
  - now simpl.
  - rewrite ticks_succ.
    destruct (IH (fst (tick Math_random data n)) (snd (tick Math_random data n))
                 (tick_nonnegative data n)) as (Hlen & Hnn & Hmonths).
    rewrite Hlen, Hmonths, tick_length, tick_months. now repeat split.
Qed.

Lemma initialMockData_nonnegative : Forall nonnegative initialMockData.
Proof. repeat constructor; discriminate. Qed.

End LiveProperties.

(** C6. After any number of ticks from the seed of eight points, whatever
    [Math.random] returns, the series still has exactly eight points, no
    revenue and no expense is negative, and the month labels are those of
    the seed, in the same order. *)
Theorem series_invariant (Math_random : nat -> number) (count n : nat) :
  List.length (fst (ticks Math_random count initialMockData n)) = 8%nat
  /\ Forall nonnegative (fst (ticks Math_random count initialMockData n))
  /\ map TimeSeriesPoint.month (fst (ticks Math_random count initialMockData n))
     = ["Jan"; "Feb"; "Mar"; "Apr"; "May"; "Jun"; "Jul"; "Aug"].
Proof.
  exact (ticks_invariant Math_random count initialMockData n
           (initialMockData_nonnegative)).
Qed.

(** C7. One tick maps the point at position [i] to the same month with
    revenue [max 0 (revenue + (u - 0.5) * 125000)] and expenses
    [max 0 (expenses + (v - 0.5) * 75000)], where [u] and [v] are two draws
    of their own, made for no other point or field.  With draws in [0, 1)
    the perturbations lie in [-62500, 62500) and [-37500, 37500); they are
    added and the sum is clamped at 0. *)
Theorem tick_point (Math_random : nat -> number)
  (Hrange : forall k, 0 <= Math_random k < 1)
  (prevData : list TimeSeriesPoint.t) (n i : nat) (item : TimeSeriesPoint.t)
  (Hitem : nth_error prevData i = Some item) :
  let u := Math_random (n + 2 * i)%nat in
  let v := Math_random (n + 2 * i + 1)%nat in
  let d_revenue := (u - 0.5) * 125000 in
  let d_expenses := (v - 0.5) * 75000 in
  nth_error (fst (tick Math_random prevData n)) i
  = Some {| TimeSeriesPoint.month := TimeSeriesPoint.month item;
            TimeSeriesPoint.revenue :=
              Math_max 0 (TimeSeriesPoint.revenue item + d_revenue);
            TimeSeriesPoint.expenses :=
              Math_max 0 (TimeSeriesPoint.expenses item + d_expenses) |}
  /\ (-62500 <= d_revenue < 62500)
  /\ (-37500 <= d_expenses < 37500)
  /\ snd (tick Math_random prevData n) = (n + 2 * List.length prevData)%nat.
Proof.
  cbv zeta. split; [|split; [|split]].
  - rewrite (tick_nth Math_random prevData n i item Hitem), perturb_eq.
    cbn [fst]. now rewrite Nat.add_1_r.
  - pose proof (Hrange (n + 2 * i)%nat). lra.
  - pose proof (Hrange (n + 2 * i + 1)%nat). lra.
  - apply tick_draws.
Qed.

Lemma tick_point_witness :
  nth_error (fst (tick (fun _ => 0.5) initialMockData 0%nat)) 7%nat
  = Some {| TimeSeriesPoint.month := "Aug";
            TimeSeriesPoint.revenue := Math_max 0 (1750000 + (0.5 - 0.5) * 125000);
            TimeSeriesPoint.expenses := Math_max 0 (1200000 + (0.5 - 0.5) * 75000) |}.
Proof.
  apply (tick_point (fun _ => 0.5)
           (fun _ => conj (Qle_bool_imp_le 0 0.5 eq_refl) (eq_refl : (0.5 ?= 1) = Lt))
           initialMockData 0%nat 7%nat
           (TimeSeriesPoint.mk "Aug" 1750000 1200000) eq_refl).
Defined.

(** ** Usage counters *)

Section Transitions.
Variable Math_random : nat -> number.
Variable h : Hooks.

Lemma run_cons (e : Event) (es : list Event) (st : Dashboard) (n : nat) :
  fst (fst (run Math_random h (e :: es) st n))
  = fst (fst (run Math_random h es (fst (fst (step Math_random h e st n)))
                (snd (step Math_random h e st n)))).
Proof.
  simpl. unfold bind, ret.
  destruct (step Math_random h e st n) as [r n']. simpl.
  now destruct (run Math_random h es (fst r) n') as [r' n''].
Qed.

Lemma step_usageStats (e : Event) (st : Dashboard) (n : nat) :
  usageStats (fst (fst (step Math_random h e st n)))
  = {| UsageStats.simulations :=
         UsageStats.simulations (usageStats st) + runs [e];
       UsageStats.exports :=
         UsageStats.exports (usageStats st) + exportations [e] |}.
Proof.
  destruct e as [| | i | | | fd |]; cbn -[Z.add tick]; unfold bind, ret.
  7: destruct (tick Math_random (mockData st) n).
  6: destruct fd.
  all: cbn -[Z.add]; rewrite ?Z.add_0_r; try reflexivity.
  all: now destruct (usageStats st).
Qed.

Lemma run_usageStats (es : list Event) (st : Dashboard) (n : nat) :
  usageStats (fst (fst (run Math_random h es st n)))
  = {| UsageStats.simulations :=
         UsageStats.simulations (usageStats st) + runs es;
       UsageStats.exports :=
         UsageStats.exports (usageStats st) + exportations es |}.
Proof.
  revert st n. induction es as [|e es IH]; intros st n.
  - cbn -[Z.add]. rewrite !Z.add_0_r. now destruct (usageStats st).
  - rewrite run_cons, IH, step_usageStats. cbn [UsageStats.simulations UsageStats.exports].
    f_equal; unfold runs, exportations; destruct e; cbn [filter List.length]; lia.
Qed.

End Transitions.

(** C8. A run adds exactly 1 to [simulations] and leaves [exports] as it
    is; an export adds exactly 1 to [exports] and leaves [simulations] as it
    is; no event of the component touches the counters otherwise.  Over any
    sequence of events each counter has grown by the number of its triggers,
    so neither one ever decreases. *)
Theorem usage_counters (Math_random : nat -> number) (h : Hooks)
  (st : Dashboard) (n : nat) :
  usageStats (fst (runSimulation h st))
  = {| UsageStats.simulations := UsageStats.simulations (usageStats st) + 1;
       UsageStats.exports := UsageStats.exports (usageStats st) |}
  /\ usageStats (handleExport st)
     = {| UsageStats.simulations := UsageStats.simulations (usageStats st);
          UsageStats.exports := UsageStats.exports (usageStats st) + 1 |}
  /\ forall es : list Event,
       UsageStats.simulations
         (usageStats (fst (fst (run Math_random h es st n))))
       = (UsageStats.simulations (usageStats st) + runs es)%Z
       /\ UsageStats.exports
            (usageStats (fst (fst (run Math_random h es st n))))
          = (UsageStats.exports (usageStats st) + exportations es)%Z
       /\ (UsageStats.simulations (usageStats st)
           <= UsageStats.simulations
                (usageStats (fst (fst (run Math_random h es st n)))))%Z
       /\ (UsageStats.exports (usageStats st)
           <= UsageStats.exports
                (usageStats (fst (fst (run Math_random h es st n)))))%Z.
Proof.
  split; [reflexivity|]. split; [reflexivity|].
  intro es. rewrite run_usageStats. cbn [UsageStats.simulations UsageStats.exports].
  unfold runs, exportations. repeat split; lia.
Qed.

(** ** What is handed to the storage collaborator *)

(** C9. In every run, what is handed to [saveFinancialData] is one record
    of exactly the seven fields [current_funds], [monthly_revenue],
    [monthly_expenses], [employees], [marketing_spend], [product_price] and
    [misc_expenses]: the two monthly figures are the revenue and the
    expenses of the results of that same run divided by 12, the other five
    are the inputs.  (Nothing is handed over when the hook provides no
    saving function.) *)
Theorem persistence_payload (h : Hooks) (st : Dashboard) :
  exists r,
    results (fst (runSimulation h st)) = Some r
    /\ savedFinancialData (snd (runSimulation h st))
       = if saveFinancialData h
         then [ {| StoredFinancialData.current_funds :=
                     SimulationInputs.currentFunds (inputs st);
                   StoredFinancialData.monthly_revenue :=
                     FinancialData.revenue r / 12;
                   StoredFinancialData.monthly_expenses :=
                     FinancialData.expenses r / 12;
                   StoredFinancialData.employees :=
                     SimulationInputs.employees (inputs st);
                   StoredFinancialData.marketing_spend :=
                     SimulationInputs.marketingSpend (inputs st);
                   StoredFinancialData.product_price :=
                     SimulationInputs.productPrice (inputs st);
                   StoredFinancialData.misc_expenses :=
                     SimulationInputs.miscExpenses (inputs st) |} ]
         else [].
Proof.
  eexists. split; [apply runSimulation_results|].
  unfold runSimulation, savedFinancialData. cbn [snd].
  destruct (userProfile h), (saveFinancialData h); reflexivity.
Qed.

(** ** Reloading stored inputs *)

Lemma or_else_reloaded (stored prev : number) :
  reloaded stored prev (or_else stored prev).
Proof.
  split; intro H.
  - now apply or_else_falsy.
  - now apply or_else_truthy.
Qed.

(** C10. When stored financial data comes in, every input whose stored
    value is zero keeps the value it had, every input whose stored value is
    not zero takes the stored value, [customParameters] is left exactly as
    it was, and nothing else in the state changes; while there is no stored
    data the state is left alone. *)
Theorem reload_frame (fd : StoredFinancialData.t) (st : Dashboard) :
  let prev := inputs st in
  let next := inputs (loadFinancialData (Some fd) st) in
  reloaded (StoredFinancialData.current_funds fd)
    (SimulationInputs.currentFunds prev) (SimulationInputs.currentFunds next)
  /\ reloaded (StoredFinancialData.employees fd)
       (SimulationInputs.employees prev) (SimulationInputs.employees next)
  /\ reloaded (StoredFinancialData.marketing_spend fd)
       (SimulationInputs.marketingSpend prev)
       (SimulationInputs.marketingSpend next)
  /\ reloaded (StoredFinancialData.product_price fd)
       (SimulationInputs.productPrice prev) (SimulationInputs.productPrice next)
  /\ reloaded (StoredFinancialData.misc_expenses fd)
       (SimulationInputs.miscExpenses prev) (SimulationInputs.miscExpenses next)
  /\ SimulationInputs.customParameters next
     = SimulationInputs.customParameters prev
  /\ loadFinancialData (Some fd) st = setInputs next st
  /\ loadFinancialData None st = st.
Proof.
  cbv zeta. repeat split; try apply or_else_reloaded; try reflexivity.
  all: cbn; intro H; first [now apply or_else_falsy | now apply or_else_truthy].
Qed.

(** A stored row with no funds and no price recorded: the two inputs keep
    their values, the others are replaced. *)
Lemma reload_example :
  inputs (loadFinancialData
            (Some {| StoredFinancialData.current_funds := 0;
                     StoredFinancialData.monthly_revenue := 29990;
                     StoredFinancialData.monthly_expenses := 85000;
                     StoredFinancialData.employees := 8;
                     StoredFinancialData.marketing_spend := 100000;
                     StoredFinancialData.product_price := 0;
                     StoredFinancialData.misc_expenses := 50000 |})
            (initialDashboard None))
  = {| SimulationInputs.employees := 8;
       SimulationInputs.marketingSpend := 100000;
       SimulationInputs.productPrice := 2999;
       SimulationInputs.miscExpenses := 50000;
       SimulationInputs.currentFunds := 5000000;
       SimulationInputs.customParameters := [] |}.
Proof. reflexivity. Qed.

(** ** The series along any run of the component *)

Section Reachable.
Variable Math_random : nat -> number.
Variable h : Hooks.

Lemma step_mockData (e : Event) (st : Dashboard) (n : nat) :
  mockData (fst (fst (step Math_random h e st n)))
  = match e with
    | IntervalFired => fst (tick Math_random (mockData st) n)
    | _ => mockData st
    end.
Proof.
  destruct e as [| | i | | | fd |]; try reflexivity.
  - now destruct fd.
  - cbn -[tick]. unfold bind, ret.
    now destruct (tick Math_random (mockData st) n).
Qed.

(** Whatever else happens in between, the series keeps its length and its
    labels and stays non-negative. *)
Lemma run_series (es : list Event) (st : Dashboard) (n : nat) :
  Forall nonnegative (mockData st) ->
  List.length (mockData (fst (fst (run Math_random h es st n))))
  = List.length (mockData st)
  /\ Forall nonnegative (mockData (fst (fst (run Math_random h es st n))))
  /\ map TimeSeriesPoint.month (mockData (fst (fst (run Math_random h es st n))))
     = map TimeSeriesPoint.month (mockData st).
Proof.
  revert st n. induction es as [|e es IH]; intros st n Hst; [now simpl|].
  rewrite run_cons.
  pose proof (step_mockData e st n) as Hstep.
  assert (Hinv : List.length (mockData (fst (fst (step Math_random h e st n))))
                 = List.length (mockData st)
                 /\ Forall nonnegative
                      (mockData (fst (fst (step Math_random h e st n))))
                 /\ map TimeSeriesPoint.month
                      (mockData (fst (fst (step Math_random h e st n))))
                    = map TimeSeriesPoint.month (mockData st)).
  { rewrite Hstep. destruct e; try now repeat split.
    repeat split; [apply tick_length | apply tick_nonnegative | apply tick_months]. }
  destruct Hinv as (Hlen & Hnn & Hmonths).
  destruct (IH _ (snd (step Math_random h e st n)) Hnn) as (Hlen' & Hnn' & Hmonths').
  rewrite Hlen', Hmonths', Hlen, Hmonths. now repeat split.
Qed.

(** X1. The context can always be built in a reachable state. *)
Lemma run_context (od : option OrganizationData.t) (es : list Event) (n : nat) :
  exists ctx,
    getFinancialContext h (fst (fst (run Math_random h es (initialDashboard od) n)))
    = Some ctx.
Proof.
  destruct (run_series es (initialDashboard od) n
              (initialMockData_nonnegative)) as (Hlen & _).
  destruct (getFinancialContext_defined h
              (fst (fst (run Math_random h es (initialDashboard od) n))))
    as (p & _ & Hctx).
  - intro Hnil. rewrite Hnil in Hlen. discriminate.
  - eexists. exact Hctx.
Qed.

End Reachable.

(** * Further properties of the component *)

(** ** The assumed quantity and the revenue *)

Lemma assumedQuantity_cases (od : option OrganizationData.t) :
  RunSimulation.assumedQuantity od
  = (if type_is od "startup" then 120 else if type_is od "event" then 80 else 100)
  /\ GetFinancialContext.assumedQuantity od = RunSimulation.assumedQuantity od.
Proof.
  unfold GetFinancialContext.assumedQuantity, RunSimulation.assumedQuantity,
    GetFinancialContext.baseMultiplier, RunSimulation.baseMultiplier.
  destruct (type_is od "startup"), (type_is od "event"); split; reflexivity.
Qed.

Lemma revenue_bounds (od : option OrganizationData.t) (i : SimulationInputs.t) :
  0 <= SimulationInputs.productPrice i ->
  80 * SimulationInputs.productPrice i <= RunSimulation.revenue od i
  <= 120 * SimulationInputs.productPrice i.
Proof.
  intro Hprice. unfold RunSimulation.revenue.
  destruct (assumedQuantity_cases od) as [-> _].
  destruct (type_is od "startup"), (type_is od "event"); lra.
Qed.

(** X4. The quantity [floor (100 * multiplier)] is 120 for a startup, 80 for an
    event and 100 otherwise, in both functions, so that with a price that
    is not negative the revenue lies between 80 and 120 times the price. *)
Theorem assumed_quantity (od : option OrganizationData.t) (i : SimulationInputs.t)
  (Hprice : 0 <= SimulationInputs.productPrice i) :
  RunSimulation.assumedQuantity od
  = (if type_is od "startup" then 120 else if type_is od "event" then 80 else 100)
  /\ GetFinancialContext.assumedQuantity od = RunSimulation.assumedQuantity od
  /\ 80 * SimulationInputs.productPrice i <= RunSimulation.revenue od i
     <= 120 * SimulationInputs.productPrice i.
Proof.
  destruct (assumedQuantity_cases od) as [Hq Hc].
  split; [exact Hq|]. split; [exact Hc|]. now apply revenue_bounds.
Qed.

Lemma assumed_quantity_witness :
  RunSimulation.assumedQuantity None = 100
  /\ 80 * 2999 <= RunSimulation.revenue None (initialInputs None) <= 120 * 2999.
Proof.
  destruct (assumed_quantity None (initialInputs None)) as (Hq & _ & Hr).
  - discriminate.
  - split; [exact Hq | exact Hr].
Defined.

(** ** The runway as a number of periods *)

Lemma revenue_nonnegative (od : option OrganizationData.t) (i : SimulationInputs.t) :
  well_formed i -> 0 <= RunSimulation.revenue od i.
Proof.
  intros (_ & _ & Hp & _).
  pose proof (revenue_bounds od i Hp). lra.
Qed.

(** X5. With inputs of the data model the expenses are at least 200000,
    the smallest fixed cost, so the runway is never the sentinel: it is a
    whole number of periods that is not negative. *)
Theorem runway_whole_number (od : option OrganizationData.t)
  (i : SimulationInputs.t) (Hinputs : well_formed i) :
  200000 <= RunSimulation.expenses od i
  /\ exists k : Z,
       RunSimulation.runway od i = Finite (inject_Z k) /\ (0 <= k)%Z.
Proof.
  pose proof (expenses_positive od i Hinputs) as Hge.
  split; [exact Hge|].
  destruct Hinputs as (_ & _ & _ & _ & Hfunds).
  exists (Qfloor (SimulationInputs.currentFunds i / RunSimulation.expenses od i)).
  split; [apply runway_cases; lra|].
  change 0%Z with (Qfloor 0). apply Qfloor_resp_le.
  apply Qle_shift_div_l; lra.
Qed.

Lemma runway_whole_number_witness :
  exists k : Z,
    RunSimulation.runway None (initialInputs None) = Finite (inject_Z k)
    /\ (0 <= k)%Z.
Proof.
  destruct (runway_whole_number None (initialInputs None)) as (_ & k & Hk & Hnn).
  - unfold well_formed. simpl. repeat split; discriminate.
  - exists k. split; assumption.
Defined.

(** X6. Less funds and more expenses never lengthen the runway. *)
Theorem runway_monotone (od od' : option OrganizationData.t)
  (i i' : SimulationInputs.t)
  (Hinputs : well_formed i) (Hinputs' : well_formed i')
  (Hfunds : SimulationInputs.currentFunds i' <= SimulationInputs.currentFunds i)
  (Hexpenses : RunSimulation.expenses od i <= RunSimulation.expenses od' i') :
  exists k k' : Z,
    RunSimulation.runway od i = Finite (inject_Z k)
    /\ RunSimulation.runway od' i' = Finite (inject_Z k')
    /\ (k' <= k)%Z.
Proof.
  pose proof (expenses_positive od i Hinputs) as Hge.
  pose proof (expenses_positive od' i' Hinputs') as Hge'.
  destruct Hinputs as (_ & _ & _ & _ & Hc), Hinputs' as (_ & _ & _ & _ & Hc').
  set (e := RunSimulation.expenses od i) in *.
  set (e' := RunSimulation.expenses od' i') in *.
  set (c := SimulationInputs.currentFunds i) in *.
  set (c' := SimulationInputs.currentFunds i') in *.
  exists (Qfloor (c / e)), (Qfloor (c' / e')).
  split; [apply runway_cases; fold e; lra|].
  split; [apply runway_cases; fold e'; lra|].
  apply Qfloor_resp_le.
  apply Qle_shift_div_l; [lra|].
  assert (Hq : c' / e' * e' == c').
  { unfold Qdiv. rewrite <- Qmult_assoc, (Qmult_comm (/ e')), Qmult_inv_r; lra. }
  assert (H0 : 0 <= c' / e') by (apply Qle_shift_div_l; lra).
  apply Qle_trans with (c' / e' * e'); [|lra].
  rewrite !(Qmult_comm (c' / e')). apply Qmult_le_compat_r; [lra | exact H0].
Qed.

Lemma runway_monotone_witness :
  exists k k' : Z,
    RunSimulation.runway None (initialInputs None) = Finite (inject_Z k)
    /\ RunSimulation.runway None
         (SimulationInputs.mk 6 200000 2999 150000 4000000 [])
       = Finite (inject_Z k')
    /\ (k' <= k)%Z.
Proof.
  apply (runway_monotone None None (initialInputs None)
           (SimulationInputs.mk 6 200000 2999 150000 4000000 [])).
  - unfold well_formed. simpl. repeat split; discriminate.
  - unfold well_formed. simpl. repeat split; discriminate.
  - discriminate.
  - discriminate.
Defined.

(** ** The range of the profit margin *)

(** X7. With inputs of the data model the margin never exceeds 100, and it
    is negative exactly when a positive revenue is below the expenses: a
    loss made with no revenue at all shows as a margin of 0. *)
Theorem margin_range (od : option OrganizationData.t) (i : SimulationInputs.t)
  (Hinputs : well_formed i) :
  ~ 100 < FinancialData.profitMargin (RunSimulation.newResults od i)
  /\ (FinancialData.profitMargin (RunSimulation.newResults od i) < 0
      <-> 0 < RunSimulation.revenue od i
          /\ RunSimulation.revenue od i < RunSimulation.expenses od i).
Proof.
  pose proof (expenses_positive od i Hinputs) as Hge.
  pose proof (revenue_nonnegative od i Hinputs) as Hrev.
  cbn [FinancialData.profitMargin RunSimulation.newResults].
  unfold RunSimulation.netProfit.
  set (e := RunSimulation.expenses od i) in *.
  set (r := RunSimulation.revenue od i) in *.
  destruct (gt r 0) eqn:Hgt.
  - apply gt_true in Hgt.
    assert (H1 : (r - e) / r <= 1) by (apply Qle_shift_div_r; lra).
    split; [lra|]. split.
    + intro Hneg. split; [exact Hgt|].
      destruct (Qlt_le_dec r e) as [Hlt|Hle]; [exact Hlt|].
      assert (0 <= (r - e) / r) by (apply Qle_shift_div_l; lra). lra.
    + intros [_ Hlt].
      assert ((r - e) / r < 0) by (apply Qlt_shift_div_r; lra). lra.
  - apply gt_false in Hgt. split; [lra|]. split; lra.
Qed.

Lemma margin_range_witness :
  ~ 100 < FinancialData.profitMargin
            (RunSimulation.newResults None (initialInputs None)).
Proof.
  destruct (margin_range None (initialInputs None)) as [H _].
  - unfold well_formed. simpl. repeat split; discriminate.
  - exact H.
Defined.

(** ** More on reloading stored inputs *)

Lemma or_else_same (a : number) : or_else a a = a.
Proof. unfold or_else. now destruct (Qeq_bool a 0). Qed.

Lemma or_else_twice (a b : number) : or_else a (or_else a b) = or_else a b.
Proof. unfold or_else. now destruct (Qeq_bool a 0). Qed.

Lemma or_else_zero (a b : number) : or_else a b == 0 -> b == 0.
Proof.
  unfold or_else. destruct (Qeq_bool a 0) eqn:E; [easy|].
  intro H. apply Qeq_bool_iff in H. congruence.
Qed.

Lemma or_else_nonnegative (a b : number) :
  0 <= a -> 0 <= b -> 0 <= or_else a b.
Proof. unfold or_else. now destruct (Qeq_bool a 0). Qed.

Lemma mergeFinancialData_well_formed (fd : StoredFinancialData.t)
  (prev : SimulationInputs.t) :
  stored_nonnegative fd -> well_formed prev ->
  well_formed (mergeFinancialData fd prev).
Proof.
  intros (H1 & H2 & H3 & H4 & H5) (P1 & P2 & P3 & P4 & P5).
  unfold well_formed, mergeFinancialData. cbn.
  repeat split; now apply or_else_nonnegative.
Qed.

(** X13. Saving and loading back: when the row a run hands to
    [saveFinancialData] comes back as [financialData], the inputs are
    exactly what they were. *)
Theorem save_then_reload (h : Hooks) (st : Dashboard)
  (Hsave : saveFinancialData h = true) :
  exists row,
    savedFinancialData (snd (runSimulation h st)) = [row]
    /\ inputs (loadFinancialData (Some row) (fst (runSimulation h st)))
       = inputs st.
Proof.
  eexists. split.
  - unfold runSimulation, savedFinancialData. cbn [snd]. rewrite Hsave.
    destruct (userProfile h); reflexivity.
  - cbn. unfold mergeFinancialData. cbn. rewrite !or_else_same.
    now destruct (inputs st).
Qed.

Lemma save_then_reload_witness :
  exists row,
    savedFinancialData
      (snd (runSimulation
              {| organizationData := None; userProfile := None;
                 saveFinancialData := true; toLocaleDateString := "" |}
              (initialDashboard None))) = [row]
    /\ inputs (loadFinancialData (Some row)
                 (fst (runSimulation
                         {| organizationData := None; userProfile := None;
                            saveFinancialData := true;
                            toLocaleDateString := "" |}
                         (initialDashboard None))))
       = initialInputs None.
Proof.
  apply (save_then_reload
           {| organizationData := None; userProfile := None;
              saveFinancialData := true; toLocaleDateString := "" |}
           (initialDashboard None) eq_refl).
Defined.

(** X14. Loading the same stored data a second time changes nothing more. *)
Theorem reload_idempotent (financialData : option StoredFinancialData.t)
  (st : Dashboard) :
  loadFinancialData financialData (loadFinancialData financialData st)
  = loadFinancialData financialData st.
Proof.
  destruct financialData as [fd|]; [|reflexivity].
  unfold loadFinancialData, mergeFinancialData. cbn.
  now rewrite !or_else_twice.
Qed.

(** X15. A reload never brings an input to zero: an input that is zero after
    the reload was zero before it, so a stored 0 (no employees, a free
    product) cannot be restored. *)
Theorem reload_never_zeroes (fd : StoredFinancialData.t) (st : Dashboard) :
  let prev := inputs st in
  let next := inputs (loadFinancialData (Some fd) st) in
  (SimulationInputs.currentFunds next == 0 ->
     SimulationInputs.currentFunds prev == 0)
  /\ (SimulationInputs.employees next == 0 ->
     SimulationInputs.employees prev == 0)
  /\ (SimulationInputs.marketingSpend next == 0 ->
     SimulationInputs.marketingSpend prev == 0)
  /\ (SimulationInputs.productPrice next == 0 ->
     SimulationInputs.productPrice prev == 0)
  /\ (SimulationInputs.miscExpenses next == 0 ->
     SimulationInputs.miscExpenses prev == 0).
Proof.
  cbv zeta. cbn. repeat split; apply or_else_zero.
Qed.

(** ** The initial inputs *)

(** X19. [employees] starts as the team size of the organization, or as 5 when
    there is no organization, no team size or a team size of 0; it is never
    zero, and with a team size that is not negative the initial inputs are
    inputs of the data model. *)
Theorem initial_inputs (od : option OrganizationData.t) :
  (forall d n,
     od = Some d -> OrganizationData.teamSize d = Some n -> ~ n == 0 ->
     SimulationInputs.employees (initialInputs od) = n)
  /\ (forall d n,
     od = Some d -> OrganizationData.teamSize d = Some n -> n == 0 ->
     SimulationInputs.employees (initialInputs od) = 5)
  /\ (forall d,
     od = Some d -> OrganizationData.teamSize d = None ->
     SimulationInputs.employees (initialInputs od) = 5)
  /\ (od = None -> SimulationInputs.employees (initialInputs od) = 5)
  /\ ~ SimulationInputs.employees (initialInputs od) == 0
  /\ ((forall d n,
        od = Some d -> OrganizationData.teamSize d = Some n -> 0 <= n) ->
      well_formed (initialInputs od)).
Proof.
  split; [|split; [|split; [|split; [|split]]]].
  - intros d n -> Hn Hnz. destruct d as [t ts]. cbn in *. subst ts.
    now apply or_else_truthy.
  - intros d n -> Hn Hz. destruct d as [t ts]. cbn in *. subst ts.
    now apply or_else_falsy.
  - intros d -> Hn. destruct d as [t ts]. cbn in *. now subst ts.
  - now intros ->.
  - destruct od as [[t [n|]]|]; cbn; try discriminate.
    intro H. apply or_else_zero in H. discriminate.
  - intro Hts. unfold well_formed.
    destruct od as [[t [n|]]|]; cbn; repeat split; try discriminate.
    apply or_else_nonnegative; [|discriminate].
    now apply (Hts _ n eq_refl).
Qed.

(** ** The context and the series *)

Lemma currentMonthData_last (l : list TimeSeriesPoint.t) (p : TimeSeriesPoint.t) :
  currentMonthData (l ++ [p]) = Some p.
Proof.
  unfold currentMonthData. rewrite length_app. cbn [List.length].
  replace (List.length l + 1 - 1)%nat with (List.length l) by lia.
  rewrite nth_error_app2 by lia. now rewrite Nat.sub_diag.
Qed.

(** X3. The context takes [currentRevenue] and [cashFlow] from the last point
    of the series, whatever comes before it, reports a growth rate of 15
    and a horizon of 12, and does not look at [results]. *)
Theorem context_reads_last_point (h : Hooks) (st : Dashboard)
  (l : list TimeSeriesPoint.t) (p : TimeSeriesPoint.t)
  (Hseries : mockData st = (l ++ [p])%list) :
  exists ctx,
    getFinancialContext h st = Some ctx
    /\ FinancialContext.currentRevenue ctx = TimeSeriesPoint.revenue p
    /\ FinancialContext.cashFlow ctx
       = TimeSeriesPoint.revenue p - TimeSeriesPoint.expenses p
    /\ FinancialContext.growthRate ctx = 15
    /\ FinancialContext.timeHorizon ctx = 12
    /\ getFinancialContext h (fst (runSimulation h st)) = Some ctx.
Proof.
  unfold getFinancialContext. cbn [fst runSimulation inputs mockData].
  rewrite Hseries, currentMonthData_last.
  eexists. split; [reflexivity|]. now repeat split.
Qed.

Lemma context_reads_last_point_witness :
  exists ctx,
    getFinancialContext
      {| organizationData := None; userProfile := None;
         saveFinancialData := false; toLocaleDateString := "" |}
      (initialDashboard None) = Some ctx
    /\ FinancialContext.currentRevenue ctx = 1750000
    /\ FinancialContext.cashFlow ctx = 1750000 - 1200000.
Proof.
  destruct (context_reads_last_point
              {| organizationData := None; userProfile := None;
                 saveFinancialData := false; toLocaleDateString := "" |}
              (initialDashboard None)
              (removelast initialMockData)
              (TimeSeriesPoint.mk "Aug" 1750000 1200000) eq_refl)
    as (ctx & H1 & H2 & H3 & _).
  exists ctx. now repeat split.
Defined.

(** ** How far a tick moves a point *)

Section Walk.
Variable Math_random : nat -> number.
Hypothesis Math_random_range : forall k, 0 <= Math_random k < 1.

Lemma perturb_step (item : TimeSeriesPoint.t) (n : nat) :
  nonnegative item ->
  TimeSeriesPoint.month (fst (perturb Math_random item n))
  = TimeSeriesPoint.month item
  /\ -62500 <= TimeSeriesPoint.revenue (fst (perturb Math_random item n))
               - TimeSeriesPoint.revenue item < 62500
  /\ -37500 <= TimeSeriesPoint.expenses (fst (perturb Math_random item n))
               - TimeSeriesPoint.expenses item < 37500.
Proof.
  intros [Hr He]. rewrite perturb_eq. cbn [fst TimeSeriesPoint.month
    TimeSeriesPoint.revenue TimeSeriesPoint.expenses]. unfold Math_max.
  pose proof (Math_random_range n) as Hu.
  pose proof (Math_random_range (S n)) as Hv.
  split; [reflexivity|]. split.
  - destruct (Q.max_spec 0 (TimeSeriesPoint.revenue item
                            + (Math_random n - 0.5) * 125000))
      as [[H Hm]|[H Hm]]; rewrite Hm; lra.
  - destruct (Q.max_spec 0 (TimeSeriesPoint.expenses item
                            + (Math_random (S n) - 0.5) * 75000))
      as [[H Hm]|[H Hm]]; rewrite Hm; lra.
Qed.

Lemma ticks_walk (count : nat) :
  forall (data : list TimeSeriesPoint.t) (n i : nat) (p : TimeSeriesPoint.t),
    Forall nonnegative data ->
    nth_error data i = Some p ->
    exists p',
      nth_error (fst (ticks Math_random count data n)) i = Some p'
      /\ TimeSeriesPoint.month p' = TimeSeriesPoint.month p
      /\ TimeSeriesPoint.revenue p - 62500 * inject_Z (Z.of_nat count)
         <= TimeSeriesPoint.revenue p'
         <= TimeSeriesPoint.revenue p + 62500 * inject_Z (Z.of_nat count)
      /\ TimeSeriesPoint.expenses p - 37500 * inject_Z (Z.of_nat count)
         <= TimeSeriesPoint.expenses p'
         <= TimeSeriesPoint.expenses p + 37500 * inject_Z (Z.of_nat count).
Proof.
  induction count as [|count IH]; intros data n i p Hdata Hp.
  - exists p. split; [exact Hp|]. split; [reflexivity|].
    change (inject_Z (Z.of_nat 0)) with 0. split; lra.
  - rewrite ticks_succ.
    assert (Hnn : nonnegative p).
    { eapply Forall_forall; [exact Hdata|]. eapply nth_error_In; exact Hp. }
    destruct (perturb_step p (n + 2 * i) Hnn) as (Hm & Hr & He).
    destruct (IH (fst (tick Math_random data n)) (snd (tick Math_random data n))
                 i (fst (perturb Math_random p (n + 2 * i)%nat))
                 (tick_nonnegative Math_random data n)
                 (tick_nth Math_random data n i p Hp))
      as (p' & Hp' & Hm' & Hr' & He').
    exists p'. split; [exact Hp'|]. split; [congruence|].
    rewrite Nat2Z.inj_succ, <- Z.add_1_r, inject_Z_plus.
    change (inject_Z 1) with 1. split; lra.
Qed.

End Walk.

(** X20. With draws in [0, 1), a point keeps its month and after [count] ticks
    its revenue is within [62500 * count] and its expenses within
    [37500 * count] of where they started: the series is a walk with
    bounded steps. *)
Theorem ticks_bounded (Math_random : nat -> number)
  (Hrange : forall k, 0 <= Math_random k < 1)
  (count n i : nat) (data : list TimeSeriesPoint.t) (p : TimeSeriesPoint.t)
  (Hdata : Forall nonnegative data)
  (Hp : nth_error data i = Some p) :
  exists p',
    nth_error (fst (ticks Math_random count data n)) i = Some p'
    /\ TimeSeriesPoint.month p' = TimeSeriesPoint.month p
    /\ TimeSeriesPoint.revenue p - 62500 * inject_Z (Z.of_nat count)
       <= TimeSeriesPoint.revenue p'
       <= TimeSeriesPoint.revenue p + 62500 * inject_Z (Z.of_nat count)
    /\ TimeSeriesPoint.expenses p - 37500 * inject_Z (Z.of_nat count)
       <= TimeSeriesPoint.expenses p'
       <= TimeSeriesPoint.expenses p + 37500 * inject_Z (Z.of_nat count).
Proof. now apply ticks_walk. Qed.

Lemma ticks_bounded_witness :
  exists p',
    nth_error (fst (ticks (fun _ => 0.5) 3 initialMockData 0%nat)) 0%nat = Some p'
    /\ TimeSeriesPoint.month p' = "Jan"
    /\ 1250000 - 62500 * 3 <= TimeSeriesPoint.revenue p' <= 1250000 + 62500 * 3.
Proof.
  destruct (ticks_bounded (fun _ => 0.5)
              (fun _ => conj (Qle_bool_imp_le 0 0.5 eq_refl)
                             (eq_refl : (0.5 ?= 1) = Lt))
              3%nat 0%nat 0%nat initialMockData
              (TimeSeriesPoint.mk "Jan" 1250000 875000)
              (initialMockData_nonnegative) eq_refl)
    as (p' & H1 & H2 & H3 & _).
  exists p'. split; [exact H1|]. split; [exact H2 | exact H3].
Defined.

(** ** Sequences of events *)

Section Sequences.
Variable Math_random : nat -> number.
Variable h : Hooks.

Lemma run_unfold (e : Event) (es : list Event) (st : Dashboard) (n : nat) :
  run Math_random h (e :: es) st n
  = let s := step Math_random h e st n in
    let s' := run Math_random h es (fst (fst s)) (snd s) in
    ((fst (fst s'), (snd (fst s) ++ snd (fst s'))%list), snd s').
Proof.
  simpl. unfold bind, ret.
  destruct (step Math_random h e st n) as [[st1 eff1] n1]. simpl.
  now destruct (run Math_random h es st1 n1) as [[st2 eff2] n2].
Qed.

Lemma run_app (es es' : list Event) (st : Dashboard) (n : nat) :
  fst (fst (run Math_random h (es ++ es') st n))
  = fst (fst (run Math_random h es'
                (fst (fst (run Math_random h es st n)))
                (snd (run Math_random h es st n)))).
Proof.
  revert st n. induction es as [|e es IH]; intros st n; [reflexivity|].
  rewrite <- app_comm_cons, !run_unfold. cbn [fst snd]. apply IH.
Qed.

Lemma step_results (e : Event) (st : Dashboard) (n : nat) :
  results (fst (fst (step Math_random h e st n)))
  = match e with
    | Simulate =>
        Some (RunSimulation.newResults (organizationData h) (inputs st))
    | _ => results st
    end.
Proof.
  destruct e as [| | i | | | fd |]; try reflexivity.
  - now destruct fd.
  - cbn -[tick]. unfold bind, ret.
    now destruct (tick Math_random (mockData st) n).
Qed.

Lemma step_inputs (e : Event) (st : Dashboard) (n : nat) :
  inputs (fst (fst (step Math_random h e st n)))
  = match e with
    | InputChange i => i
    | FinancialDataChanged (Some fd) => mergeFinancialData fd (inputs st)
    | _ => inputs st
    end.
Proof.
  destruct e as [| | i | | | fd |]; try reflexivity.
  - now destruct fd.
  - cbn -[tick]. unfold bind, ret.
    now destruct (tick Math_random (mockData st) n).
Qed.

Lemma step_effects (e : Event) (st : Dashboard) (n : nat) :
  snd (fst (step Math_random h e st n))
  = match e with
    | Simulate => snd (runSimulation h st)
    | _ => []
    end.
Proof.
  destruct e as [| | i | | | fd |]; try reflexivity.
  cbn -[tick]. unfold bind, ret.
  now destruct (tick Math_random (mockData st) n).
Qed.

Lemma runs_cons (e : Event) (es : list Event) :
  runs (e :: es)
  = ((match e with Simulate => 1 | _ => 0 end) + runs es)%Z.
Proof. unfold runs. destruct e; cbn [filter List.length]; lia. Qed.

Lemma runs_nonnegative (es : list Event) : (0 <= runs es)%Z.
Proof. unfold runs. lia. Qed.

Lemma results_kept (es : list Event) (st : Dashboard) (n : nat) :
  runs es = 0%Z ->
  results (fst (fst (run Math_random h es st n))) = results st.
Proof.
  revert st n. induction es as [|e es IH]; intros st n Hruns; [reflexivity|].
  rewrite runs_cons in Hruns. pose proof (runs_nonnegative es).
  rewrite run_unfold. cbn [fst snd]. rewrite IH by (destruct e; lia).
  rewrite step_results. destruct e; try reflexivity. lia.
Qed.

Lemma results_none (es : list Event) (st : Dashboard) (n : nat) :
  results (fst (fst (run Math_random h es st n))) = None
  <-> results st = None /\ runs es = 0%Z.
Proof.
  revert st n. induction es as [|e es IH]; intros st n.
  - cbn. intuition.
  - rewrite run_unfold. cbn [fst snd]. rewrite IH, step_results, runs_cons.
    pose proof (runs_nonnegative es).
    destruct e; split; intros [H1 H2]; try (split; [assumption|lia]);
      try discriminate; lia.
Qed.

Lemma saved_rows_of_run (st : Dashboard) :
  List.length (savedFinancialData (snd (runSimulation h st)))
  = (if saveFinancialData h then 1 else 0)%nat
  /\ List.length (savedSimulations (snd (runSimulation h st)))
     = (match userProfile h with Some _ => 1 | None => 0 end)%nat.
Proof.
  unfold runSimulation, savedFinancialData, savedSimulations. cbn [snd].
  destruct (userProfile h), (saveFinancialData h); split; reflexivity.
Qed.

End Sequences.

(** X9. What [results] holds is the projection of the inputs as they were at
    the last run: events after it, a change of the inputs included, leave
    [results] as they are until the next run. *)
Theorem results_of_last_run (Math_random : nat -> number) (h : Hooks)
  (es es' : list Event) (st : Dashboard) (n : nat)
  (Hlast : runs es' = 0%Z) :
  results (fst (fst (run Math_random h (es ++ Simulate :: es') st n)))
  = Some (RunSimulation.newResults (organizationData h)
            (inputs (fst (fst (run Math_random h es st n))))).
Proof.
  rewrite run_app, run_unfold. cbn [fst snd].
  now rewrite results_kept.
Qed.

Lemma results_of_last_run_witness :
  results (fst (fst (run (fun _ => 0.5)
    {| organizationData := None; userProfile := None;
       saveFinancialData := false; toLocaleDateString := "" |}
    ([Export] ++ Simulate
       :: [InputChange (SimulationInputs.mk 0 0 0 0 0 []); IntervalFired])
    (initialDashboard None) 0%nat)))
  = Some (RunSimulation.newResults None (initialInputs None)).
Proof.
  apply (results_of_last_run (fun _ => 0.5)
    {| organizationData := None; userProfile := None;
       saveFinancialData := false; toLocaleDateString := "" |}
    [Export] [InputChange (SimulationInputs.mk 0 0 0 0 0 []); IntervalFired]
    (initialDashboard None) 0%nat eq_refl).
Defined.

(** X10. The call to action is on screen exactly until the first run: once
    there are results, no event removes them. *)
Theorem call_to_action_until_first_run (Math_random : nat -> number)
  (h : Hooks) (od : option OrganizationData.t) (es : list Event) (n : nat) :
  showCallToAction (fst (fst (run Math_random h es (initialDashboard od) n)))
  = true
  <-> runs es = 0%Z.
Proof.
  unfold showCallToAction.
  pose proof (results_none Math_random h es (initialDashboard od) n) as H.
  destruct (results (fst (fst (run Math_random h es (initialDashboard od) n)))).
  - split; [discriminate|]. intro Hr.
    assert (Hn : @None FinancialData.t = None /\ runs es = 0%Z) by now split.
    apply H in Hn. discriminate.
  - split; [|reflexivity]. intros _. now apply H.
Qed.

Section Frames.
Variable Math_random : nat -> number.
Variable h : Hooks.

Lemma run_effects (e : Event) (es : list Event) (st : Dashboard) (n : nat) :
  snd (fst (run Math_random h (e :: es) st n))
  = (snd (fst (step Math_random h e st n))
     ++ snd (fst (run Math_random h es
                    (fst (fst (step Math_random h e st n)))
                    (snd (step Math_random h e st n)))))%list.
Proof. now rewrite run_unfold. Qed.

Lemma savedFinancialData_app (a b : list Effect) :
  savedFinancialData (a ++ b) = (savedFinancialData a ++ savedFinancialData b)%list.
Proof. apply flat_map_app. Qed.

Lemma savedSimulations_app (a b : list Effect) :
  savedSimulations (a ++ b) = (savedSimulations a ++ savedSimulations b)%list.
Proof. apply flat_map_app. Qed.

Lemma run_inputs_invariant (P : SimulationInputs.t -> Prop) (ok : Event -> Prop) :
  (forall e st n, ok e -> P (inputs st) ->
                  P (inputs (fst (fst (step Math_random h e st n))))) ->
  forall es st n,
    Forall ok es -> P (inputs st) ->
    P (inputs (fst (fst (run Math_random h es st n)))).
Proof.
  intros Hstep es. induction es as [|e es IH]; intros st n Hes HP; [exact HP|].
  rewrite run_unfold. cbn [fst snd]. inversion Hes; subst.
  apply IH; [assumption|]. now apply Hstep.
Qed.

End Frames.

(** X11. Only a run talks to the storage: over any sequence of events a row is
    handed to [saveFinancialData] once per run when the function is there,
    a record to [saveSimulation] once per run when there is a user profile,
    and nothing is ever saved by a tick, an export, a change of the inputs,
    the chat or a reload. *)
Theorem persistence_only_on_runs (Math_random : nat -> number) (h : Hooks)
  (es : list Event) (st : Dashboard) (n : nat) :
  Z.of_nat (List.length
              (savedFinancialData (snd (fst (run Math_random h es st n)))))
  = (if saveFinancialData h then runs es else 0%Z)
  /\ Z.of_nat (List.length
                 (savedSimulations (snd (fst (run Math_random h es st n)))))
     = (match userProfile h with Some _ => runs es | None => 0%Z end).
Proof.
  revert st n. induction es as [|e es IH]; intros st n.
  - cbn. destruct (saveFinancialData h), (userProfile h); now split.
  - rewrite run_effects, savedFinancialData_app, savedSimulations_app,
      !length_app, !Nat2Z.inj_add, step_effects, runs_cons.
    destruct (IH (fst (fst (step Math_random h e st n)))
                 (snd (step Math_random h e st n))) as [-> ->].
    destruct e;
      try (cbn [savedFinancialData savedSimulations flat_map List.length];
           destruct (saveFinancialData h), (userProfile h); split; lia).
    destruct (saved_rows_of_run h st) as [-> ->].
    destruct (saveFinancialData h), (userProfile h); split; lia.
Qed.

(** X16. The inputs are written by the form and by a reload only: a sequence of
    runs, exports, ticks and chat openings, in any order and number, leaves
    them exactly as they were. *)
Theorem inputs_frame (Math_random : nat -> number) (h : Hooks)
  (es : list Event) (st : Dashboard) (n : nat)
  (Hes : Forall (fun e => writes_inputs e = false) es) :
  inputs (fst (fst (run Math_random h es st n))) = inputs st.
Proof.
  apply (run_inputs_invariant Math_random h (fun i => i = inputs st)
           (fun e => writes_inputs e = false)); [|exact Hes|reflexivity].
  intros e st' n' He Hi. rewrite step_inputs.
  destruct e as [| | i | | | [fd|] |]; try discriminate; exact Hi.
Qed.

Lemma inputs_frame_witness :
  inputs (fst (fst (run (fun _ => 0.5)
    {| organizationData := None; userProfile := None;
       saveFinancialData := false; toLocaleDateString := "" |}
    [Simulate; IntervalFired; Export; ChatOpen; FinancialDataChanged None]
    (initialDashboard None) 0%nat)))
  = initialInputs None.
Proof.
  apply (inputs_frame (fun _ => 0.5)
    {| organizationData := None; userProfile := None;
       saveFinancialData := false; toLocaleDateString := "" |}
    [Simulate; IntervalFired; Export; ChatOpen; FinancialDataChanged None]
    (initialDashboard None) 0%nat).
  repeat constructor.
Defined.

(** X17. [customParameters] are written by the form only: along any sequence
    of events without a change made in the form, reloads of stored data
    included, they stay exactly as they were. *)
Theorem customParameters_frame (Math_random : nat -> number) (h : Hooks)
  (es : list Event) (st : Dashboard) (n : nat)
  (Hes : Forall (fun e => is_input_change e = false) es) :
  SimulationInputs.customParameters
    (inputs (fst (fst (run Math_random h es st n))))
  = SimulationInputs.customParameters (inputs st).
Proof.
  apply (run_inputs_invariant Math_random h
           (fun i => SimulationInputs.customParameters i
                     = SimulationInputs.customParameters (inputs st))
           (fun e => is_input_change e = false)); [|exact Hes|reflexivity].
  intros e st' n' He Hi. rewrite step_inputs.
  destruct e as [| | i | | | [fd|] |]; try discriminate; exact Hi.
Qed.

Lemma customParameters_frame_witness :
  SimulationInputs.customParameters
    (inputs (fst (fst (run (fun _ => 0.5)
      {| organizationData := None; userProfile := None;
         saveFinancialData := false; toLocaleDateString := "" |}
      [FinancialDataChanged
         (Some (StoredFinancialData.mk 1 2 3 4 5 6 7)); Simulate]
      (setInputs (SimulationInputs.mk 5 0 0 0 0 [("churn", "0.02")])
         (initialDashboard None)) 0%nat))))
  = [("churn", "0.02")].
Proof.
  apply (customParameters_frame (fun _ => 0.5)
    {| organizationData := None; userProfile := None;
       saveFinancialData := false; toLocaleDateString := "" |}
    [FinancialDataChanged (Some (StoredFinancialData.mk 1 2 3 4 5 6 7)); Simulate]
    (setInputs (SimulationInputs.mk 5 0 0 0 0 [("churn", "0.02")])
       (initialDashboard None)) 0%nat).
  repeat constructor.
Defined.

(** X18. The inputs stay inputs of the data model: when the form only submits
    inputs without a negative field and the stored rows have none, no
    sequence of events makes a field of the inputs negative. *)
Theorem inputs_stay_well_formed (Math_random : nat -> number) (h : Hooks)
  (es : list Event) (st : Dashboard) (n : nat)
  (Hes : Forall admissible es) (Hst : well_formed (inputs st)) :
  well_formed (inputs (fst (fst (run Math_random h es st n)))).
Proof.
  apply (run_inputs_invariant Math_random h well_formed admissible);
    [|exact Hes|exact Hst].
  intros e st' n' He Hi. rewrite step_inputs.
  destruct e as [| | i | | | [fd|] |]; try exact Hi.
  - exact He.
  - now apply mergeFinancialData_well_formed.
Qed.

Lemma inputs_stay_well_formed_witness :
  well_formed
    (inputs (fst (fst (run (fun _ => 0.5)
      {| organizationData := None; userProfile := None;
         saveFinancialData := false; toLocaleDateString := "" |}
      [FinancialDataChanged
         (Some (StoredFinancialData.mk 1 2 3 0 5 6 7)); Simulate]
      (initialDashboard None) 0%nat)))).
Proof.
  apply (inputs_stay_well_formed (fun _ => 0.5)
    {| organizationData := None; userProfile := None;
       saveFinancialData := false; toLocaleDateString := "" |}
    [FinancialDataChanged (Some (StoredFinancialData.mk 1 2 3 0 5 6 7)); Simulate]
    (initialDashboard None) 0%nat).
  - repeat constructor; discriminate.
  - unfold well_formed. simpl. repeat split; discriminate.
Defined.

(** X2. In every state the component can reach, the series still has its
    eight points with the labels of the seed and without a negative value,
    whatever events came in between the ticks. *)
Theorem reachable_series (Math_random : nat -> number) (h : Hooks)
  (od : option OrganizationData.t) (es : list Event) (n : nat) :
  List.length
    (mockData (fst (fst (run Math_random h es (initialDashboard od) n))))
  = 8%nat
  /\ Forall nonnegative
       (mockData (fst (fst (run Math_random h es (initialDashboard od) n))))
  /\ map TimeSeriesPoint.month
       (mockData (fst (fst (run Math_random h es (initialDashboard od) n))))
     = ["Jan"; "Feb"; "Mar"; "Apr"; "May"; "Jun"; "Jul"; "Aug"].
Proof.
  exact (run_series Math_random h es (initialDashboard od) n
           initialMockData_nonnegative).
Qed.

(** X12. What a run hands to [saveSimulation]: nothing without a user profile;
    with one, a single record for that user carrying the current inputs and
    the very results put in the state, described by the organization type
    or by "General" when the type is missing or empty. *)
Theorem saved_simulation (h : Hooks) (st : Dashboard) :
  (userProfile h = None -> savedSimulations (snd (runSimulation h st)) = [])
  /\ (forall id, userProfile h = Some id ->
      exists description r,
        savedSimulations (snd (runSimulation h st))
        = [(id, ("Simulation " ++ toLocaleDateString h)%string, description,
            inputs st, r)]
        /\ results (fst (runSimulation h st)) = Some r
        /\ (forall t, organizationType (organizationData h) = Some t ->
                      t <> ""%string ->
                      description = (t ++ " simulation")%string)
        /\ (organizationType (organizationData h) = None
            \/ organizationType (organizationData h) = Some ""%string ->
            description = "General simulation"%string)).
Proof.
  split.
  - intro Hnone. unfold runSimulation, savedSimulations. cbn [snd].
    rewrite Hnone. now destruct (saveFinancialData h).
  - intros id Hid. eexists. eexists. split; [|split; [|split]].
    + unfold runSimulation, savedSimulations. cbn [snd]. rewrite Hid.
      destruct (saveFinancialData h); reflexivity.
    + reflexivity.
    + intros t Ht Hne. rewrite Ht. cbn.
      destruct (String.eqb_spec t ""); [contradiction|reflexivity].
    + intros [Ht|Ht]; rewrite Ht; reflexivity.
Qed.

(** ** What is displayed *)

Lemma runway_finite (od : option OrganizationData.t) (i : SimulationInputs.t) :
  well_formed i -> RunSimulation.runway od i <> Infinity.
Proof.
  intro Hi. pose proof (expenses_positive od i Hi) as Hge.
  destruct (runway_cases od i) as [Hpos _].
  rewrite Hpos by lra. discriminate.
Qed.

(** X8. The results on display never carry the [Infinity] runway: from the
    initial state with a team size that is not negative, and as long as the
    form and the storage bring no negative value in, whatever [results]
    holds after any sequence of events has a finite runway and a margin
    that does not exceed 100. *)
Theorem displayed_results_finite (Math_random : nat -> number) (h : Hooks)
  (od : option OrganizationData.t) (es : list Event) (n : nat)
  (r : FinancialData.t)
  (Hteam : forall d t, od = Some d -> OrganizationData.teamSize d = Some t ->
                       0 <= t)
  (Hes : Forall admissible es)
  (Hr : results (fst (fst (run Math_random h es (initialDashboard od) n)))
        = Some r) :
  FinancialData.runway r <> Infinity /\ ~ 100 < FinancialData.profitMargin r.
Proof.
  assert (Hinit : well_formed (inputs (initialDashboard od))
                  /\ forall r', results (initialDashboard od) = Some r' ->
                       exists i, well_formed i
                         /\ r' = RunSimulation.newResults (organizationData h) i).
  { split; [|discriminate]. cbn.
    unfold well_formed. destruct od as [[t [ts|]]|]; cbn;
      repeat split; try discriminate.
    apply or_else_nonnegative; [|discriminate]. now apply (Hteam _ ts eq_refl). }
  assert (Hinv : forall es st n,
             Forall admissible es ->
             (well_formed (inputs st)
              /\ forall r', results st = Some r' ->
                   exists i, well_formed i
                     /\ r' = RunSimulation.newResults (organizationData h) i) ->
             forall r', results (fst (fst (run Math_random h es st n))) = Some r' ->
               exists i, well_formed i
                 /\ r' = RunSimulation.newResults (organizationData h) i).
  { clear. intros es. induction es as [|e es IH]; intros st n Hes [Hwf Hres] r' Hr'.
    - now apply Hres.
    - rewrite run_unfold in Hr'. cbn [fst snd] in Hr'.
      inversion Hes as [|e0 es0 He Hes']; subst.
      apply (IH _ _ Hes') in Hr'; [exact Hr'|]. split.
      + rewrite step_inputs.
        destruct e as [| | i | | | [fd|] |]; try exact Hwf; [exact He|].
        now apply mergeFinancialData_well_formed.
      + intros r0. rewrite step_results.
        destruct e as [| | i | | | [fd|] |]; try apply Hres.
        intros [= <-]. now exists (inputs st). }
  destruct (Hinv es _ n Hes Hinit r Hr) as (i & Hi & ->).
  cbn [FinancialData.runway FinancialData.profitMargin RunSimulation.newResults].
  split; [now apply runway_finite|].
  pose proof (expenses_positive (organizationData h) i Hi) as Hge.
  pose proof (revenue_nonnegative (organizationData h) i Hi) as Hrev.
  unfold RunSimulation.netProfit.
  destruct (gt (RunSimulation.revenue (organizationData h) i) 0) eqn:Hgt;
    [|lra].
  apply gt_true in Hgt.
  assert ((RunSimulation.revenue (organizationData h) i
           - RunSimulation.expenses (organizationData h) i)
          / RunSimulation.revenue (organizationData h) i <= 1)
    by (apply Qle_shift_div_r; lra).
  lra.
Qed.

Lemma displayed_results_finite_witness :
  FinancialData.runway (RunSimulation.newResults None (initialInputs None))
  <> Infinity.
Proof.
  apply (displayed_results_finite (fun _ => 0.5)
    {| organizationData := None; userProfile := None;
       saveFinancialData := false; toLocaleDateString := "" |}
    None [IntervalFired; Simulate; Export] 0%nat
    (RunSimulation.newResults None (initialInputs None))).
  - discriminate.
  - repeat constructor.
  - reflexivity.
Defined.
